(** * Gene-length extraction of [presentation.py]

    A shallow embedding of the one piece of logic in the report viewer:
    [extract_gene_lengths], which reads a Glimmer [.predict] file and
    returns the inclusive length of every predicted gene, together with
    the length cut-off the script applies before plotting.  The sections
    of the page that pick and read a report file (the FastQC and Quast
    sections) are embedded after it.

    Text is modelled on code points U+0000..U+00FF, one [ascii] per code
    point, which is the range where Python's whitespace and decimal-digit
    tables are written out below.  Python integers are [Z]. *)

From Stdlib Require Import ZArith NArith Ascii String List Bool Lia.
From stdpp Require Import gmap strings list sorting.

Local Open Scope string_scope.

(** ** Exceptions *)

Inductive exn : Type :=
| FileNotFoundError
| IndexError
| ValueError
| NotADirectoryError
| IsADirectoryError
| PermissionError
| OSError
| UnicodeDecodeError.

Inductive result (A : Type) : Type :=
| Ok (a : A)
| Raise (e : exn).
Arguments Ok {A} a.
Arguments Raise {A} e.

(** Sequencing stops at the first exception; stdpp's [x ← r; k] notation
    is used for it. *)
Global Instance result_ret : MRet result := fun A a => Ok a.
Global Instance result_bind : MBind result := fun A B k r =>
  match r with
  | Ok a => k a
  | Raise e => Raise e
  end.

(** ** The built-ins the extractor calls *)

Module Py.

Definition LF : ascii := "010"%char.
Definition CR : ascii := "013"%char.

(** [str.isspace] on one code point below U+0100: TAB..CR, FS..US, SPACE,
    NEL and NBSP.  [str.strip()] and [str.split()] use the same table. *)
Definition isspace (c : ascii) : bool :=
  let n := N_of_ascii c in
  ((9 <=? n) && (n <=? 13) || (28 <=? n) && (n <=? 31)
   || (n =? 32) || (n =? 133) || (n =? 160))%N.

Definition startswith (prefix : ascii) (s : string) : bool :=
  match s with
  | String c _ => Ascii.eqb c prefix
  | EmptyString => false
  end.

Fixpoint lstrip (s : string) : string :=
  match s with
  | String c rest => if isspace c then lstrip rest else s
  | EmptyString => EmptyString
  end.

Fixpoint rstrip (s : string) : string :=
  match s with
  | EmptyString => EmptyString
  | String c rest =>
      match rstrip rest with
      | EmptyString => if isspace c then EmptyString else String c EmptyString
      | kept => String c kept
      end
  end.

(** [s.strip()] *)
Definition strip (s : string) : string := rstrip (lstrip s).

(** A finished field, if any characters were collected for it. *)
Definition emit (word : string) (fields : list string) : list string :=
  match word with
  | EmptyString => fields
  | _ => String.rev word :: fields
  end.

(** The scan of [s.split()]: [word] holds the characters of the field
    being read, most recent first. *)
Fixpoint split_scan (word : string) (s : string) : list string :=
  match s with
  | EmptyString => emit word []
  | String c rest =>
      if isspace c then emit word (split_scan EmptyString rest)
      else split_scan (String c word) rest
  end.

(** [s.split()] *)
Definition split (s : string) : list string := split_scan EmptyString s.

(** [xs[i]] for a non-negative index. *)
Definition getitem {A : Type} (xs : list A) (i : nat) : result A :=
  match xs !! i with
  | Some x => Ok x
  | None => Raise IndexError
  end.

(** *** [int(s)] in base ten *)

(** The whitespace [int] tolerates around a literal. *)
Definition int_isspace (c : ascii) : bool :=
  let n := N_of_ascii c in
  ((9 <=? n) && (n <=? 13) || (n =? 32) || (n =? 133) || (n =? 160))%N.

Fixpoint int_lstrip (s : string) : string :=
  match s with
  | String c rest => if int_isspace c then int_lstrip rest else s
  | EmptyString => EmptyString
  end.

Fixpoint int_rstrip (s : string) : string :=
  match s with
  | EmptyString => EmptyString
  | String c rest =>
      match int_rstrip rest with
      | EmptyString =>
          if int_isspace c then EmptyString else String c EmptyString
      | kept => String c kept
      end
  end.

Definition digit_value (c : ascii) : option Z :=
  let n := N_of_ascii c in
  if ((48 <=? n) && (n <=? 57))%N then Some (Z.of_N n - 48)%Z else None.

Definition underscore : ascii := "_"%char.

(** Digits and single separating underscores; [prev] is the character
    just read, [digits] counts the digits seen, [acc] is their value. *)
Fixpoint scan_digits (s : string) (prev : ascii) (digits : nat) (acc : Z)
  : option (nat * Z) :=
  match s with
  | EmptyString =>
      if Ascii.eqb prev underscore then None else Some (digits, acc)
  | String c rest =>
      if Ascii.eqb c underscore then
        if Ascii.eqb prev underscore then None
        else scan_digits rest c digits acc
      else
        match digit_value c with
        | Some d => scan_digits rest c (S digits) (10 * acc + d)%Z
        | None => None
        end
  end.

(** CPython's default limit on the digits of a decimal literal. *)
Definition int_max_str_digits : nat := 4300.

Definition int_magnitude (s : string) : option Z :=
  match s with
  | EmptyString => None
  | String c _ =>
      if Ascii.eqb c underscore then None
      else
        match scan_digits s Ascii.zero 0 0%Z with
        | Some (digits, v) =>
            if (int_max_str_digits <? digits)%nat then None else Some v
        | None => None
        end
  end.

Definition int_literal (s : string) : option Z :=
  let body := int_rstrip (int_lstrip s) in
  match body with
  | String "+"%char rest => int_magnitude rest
  | String "-"%char rest => Z.opp <$> int_magnitude rest
  | _ => int_magnitude body
  end.

(** [int(s)]: the value, or [ValueError] for an invalid literal. *)
Definition int (s : string) : result Z :=
  match int_literal s with
  | Some v => Ok v
  | None => Raise ValueError
  end.

(** *** Text files *)

(** Universal-newlines translation of [open(path, 'r')]: CR LF and a
    lone CR are read as LF. *)
Fixpoint universal_newlines (s : string) : string :=
  match s with
  | EmptyString => EmptyString
  | String c rest =>
      if Ascii.eqb c CR then
        match rest with
        | String c' rest' =>
            if Ascii.eqb c' LF then String LF (universal_newlines rest')
            else String LF (universal_newlines rest)
        | EmptyString => String LF EmptyString
        end
      else String c (universal_newlines rest)
  end.

(** The lines a file iterator yields: each keeps its terminating LF,
    the last one may lack it. *)
Fixpoint iter_lines (s : string) : list string :=
  match s with
  | EmptyString => []
  | String c rest =>
      if Ascii.eqb c LF then String c EmptyString :: iter_lines rest
      else
        match iter_lines rest with
        | [] => [String c EmptyString]
        | line :: lines => String c line :: lines
        end
  end.

Definition readlines (contents : string) : list string :=
  iter_lines (universal_newlines contents).

End Py.

(** ** The world the script runs in *)

(** The error the operating system answers an [open] with. *)
Inductive os_error : Type :=
| ENOENT    (* an entry that leads nowhere, such as a dangling link *)
| ENOTDIR   (* a component of the path is not a directory *)
| EISDIR    (* the path names a directory *)
| EACCES    (* no permission to read *)
| EOTHER.   (* any other, such as a name that is too long *)

(** The exception class CPython raises for it. *)
Definition os_exn (e : os_error) : exn :=
  match e with
  | ENOENT => FileNotFoundError
  | ENOTDIR => NotADirectoryError
  | EISDIR => IsADirectoryError
  | EACCES => PermissionError
  | EOTHER => OSError
  end.

(** What stands at a path that is not a readable text file: something
    the system refuses to open, or a file that opens but whose bytes do
    not decode; [decoded] are the lines the iterator yields before the
    decoder fails. *)
Inductive obstacle : Type :=
| Refuses (e : os_error)
| Undecodable (decoded : list string).

(** The readable text files, by path; for every other path what stands
    there, [None] where nothing does; and the number of file objects
    currently open. *)
Record world : Type := World {
  files : gmap string string;
  obstacles : string -> option obstacle;
  open_files : nat
}.

(** A computation that may raise and may change the world. *)
Definition io (A : Type) : Type := world -> result A * world.

(** An open text file: the lines still to be read, and whether the
    decoder gets through the bytes after them. *)
Record text_file : Type := TextFile {
  unread : list string;
  decodes : bool
}.

(** A NUL character in the path. *)
Fixpoint has_nul (path : string) : bool :=
  match path with
  | EmptyString => false
  | String c rest => Ascii.eqb c Ascii.zero || has_nul rest
  end.

(** Nothing at all stands at the path: the system would answer an
    [open] with "no such file". *)
Definition nothing_at (w : world) (path : string) : Prop :=
  files w !! path = None /\ obstacles w path = None /\
  has_nul path = false.

Definition opened (w : world) : world :=
  {| files := files w; obstacles := obstacles w;
     open_files := S (open_files w) |}.

(** [open(path, 'r')]: a readable text file opens; a path with a NUL
    character is refused by Python itself with ValueError; otherwise
    the system's answer is raised, FileNotFoundError where nothing
    stands at the path. *)
Definition open (path : string) : io text_file := fun w =>
  match files w !! path with
  | Some contents =>
      (Ok {| unread := Py.readlines contents; decodes := true |}, opened w)
  | None =>
      if has_nul path then (Raise ValueError, w)
      else
        match obstacles w path with
        | None => (Raise FileNotFoundError, w)
        | Some (Refuses e) => (Raise (os_exn e), w)
        | Some (Undecodable decoded) =>
            (Ok {| unread := decoded; decodes := false |}, opened w)
        end
  end.

Definition close : io unit := fun w =>
  (Ok tt, {| files := files w; obstacles := obstacles w;
             open_files := Nat.pred (open_files w) |}).

(** [with open(path, 'r') as file: body]: the file is closed when the
    block is left, whether it finished or raised. *)
Definition with_open {A : Type} (path : string)
    (body : text_file -> io A) : io A := fun w =>
  match open path w with
  | (Raise e, w') => (Raise e, w')
  | (Ok file, w1) =>
      let (r, w2) := body file w1 in
      (r, snd (close w2))
  end.

(** ** The extractor *)

Definition header_marker : ascii := ">"%char.

(** One pass through the body of the [for] loop. *)
Definition loop_body (line : string) (gene_lengths : list Z)
  : result (list Z) :=
  if Py.startswith header_marker line then Ok gene_lengths
  else
    let fields := Py.split (Py.strip line) in
    field1 ← Py.getitem fields 1;
    start ← Py.int field1;
    field2 ← Py.getitem fields 2;
    end_ ← Py.int field2;
    let gene_length := (Z.abs (end_ - start) + 1)%Z in
    Ok (gene_lengths ++ [gene_length])%list.

(** [for line in file: ...], leaving the loop at the first exception. *)
Fixpoint for_lines (file : list string) (gene_lengths : list Z)
  : result (list Z) :=
  match file with
  | [] => Ok gene_lengths
  | line :: rest =>
      gene_lengths' ← loop_body line gene_lengths;
      for_lines rest gene_lengths'
  end.

(** The whole loop over an open file: the iterator raises
    UnicodeDecodeError where the bytes stop decoding. *)
Definition for_file (file : text_file) (gene_lengths : list Z)
  : result (list Z) :=
  gene_lengths' ← for_lines (unread file) gene_lengths;
  if decodes file then Ok gene_lengths' else Raise UnicodeDecodeError.

Definition extract_gene_lengths (file_path : string) : io (list Z) :=
  with_open file_path (fun file w => (for_file file [], w)).

(** ** The caller *)

Definition file_path : string := "run_tres.predict".

(** [df[df["Predicted Gene Length"] <= 100000]] on the one-column frame. *)
Definition df (predicted_gene_lengths : list Z) : list Z :=
  List.filter (fun gene_length => (gene_length <=? 100000)%Z)
    predicted_gene_lengths.

(** The gene-length section of the script up to the frame handed to the
    box plot; nothing in it catches an exception. *)
Definition gene_length_section : io (list Z) := fun w =>
  match extract_gene_lengths file_path w with
  | (Ok predicted_gene_lengths, w') => (Ok (df predicted_gene_lengths), w')
  | (Raise e, w') => (Raise e, w')
  end.

(** ** Vocabulary of the file format *)

Definition is_header (line : string) : bool :=
  Py.startswith header_marker line.

Definition is_data (line : string) : bool := negb (is_header line).

(** The whitespace-separated fields of a line. *)
Definition fields_of (line : string) : list string :=
  Py.split (Py.strip line).

(** Every character of the line is whitespace (the line terminator
    included); the empty line is the case of a bare terminator. *)
Fixpoint blank (line : string) : bool :=
  match line with
  | EmptyString => true
  | String c rest => Py.isspace c && blank rest
  end.

Definition nl : string := String Py.LF EmptyString.

(** A world holding one file. *)
Definition one_file (path contents : string) : world :=
  {| files := {[ path := contents ]}; obstacles := fun _ => None;
     open_files := 0 |}.

(** A data line whose fields 1 and 2 read as the integers [start] and
    [end_]. *)
Definition coordinates (line : string) (start end_ : Z) : Prop :=
  exists field1 field2,
    fields_of line !! 1%nat = Some field1 /\
    fields_of line !! 2%nat = Some field2 /\
    Py.int field1 = Ok start /\
    Py.int field2 = Ok end_.

(** A line the format allows: a header, or a data line with coordinates. *)
Definition well_formed (line : string) : Prop :=
  is_header line = true \/
  (is_header line = false /\ exists start end_, coordinates line start end_).

(** A data line that is too short or whose coordinates do not read as
    integers. *)
Definition malformed (line : string) : Prop :=
  is_header line = false /\
  ((length (fields_of line) < 3)%nat \/
   (exists field, fields_of line !! 1%nat = Some field /\
                  Py.int field = Raise ValueError) \/
   (exists field, fields_of line !! 2%nat = Some field /\
                  Py.int field = Raise ValueError)).

Definition parse_error (e : exn) : Prop := e = IndexError \/ e = ValueError.

(** The inclusive span the extractor computes. *)
Definition span (start end_ : Z) : Z := (Z.abs (end_ - start) + 1)%Z.

(** The length recorded for a data line. *)
Definition length_of (line : string) (gene_length : Z) : Prop :=
  exists start end_, coordinates line start end_ /\
                     gene_length = span start end_.

(** Two data lines whose fields 1 and 2 are the same text; field 0 and
    the fields from index 3 on are unconstrained. *)
Definition same_coordinate_fields (line1 line2 : string) : Prop :=
  is_header line1 = false /\ is_header line2 = false /\
  fields_of line1 !! 1%nat = fields_of line2 !! 1%nat /\
  fields_of line1 !! 2%nat = fields_of line2 !! 2%nat.

(** Lines of two files that are either identical or data lines differing
    outside fields 1 and 2. *)
Definition agree (line1 line2 : string) : Prop :=
  line1 = line2 \/ same_coordinate_fields line1 line2.

(** What a pass through the loop body can do. *)
Inductive body_outcome (line : string) (acc : list Z)
  : result (list Z) -> Prop :=
| outcome_header :
    is_header line = true ->
    body_outcome line acc (Ok acc)
| outcome_data start end_ :
    is_header line = false ->
    coordinates line start end_ ->
    body_outcome line acc (Ok (acc ++ [span start end_])%list)
| outcome_raise e :
    is_header line = false ->
    parse_error e ->
    malformed line ->
    body_outcome line acc (Raise e).

(** ** Lines written from their fields *)

(** A field as [split] produces them: not empty and free of whitespace. *)
Fixpoint no_space (s : string) : bool :=
  match s with
  | EmptyString => true
  | String c rest => negb (Py.isspace c) && no_space rest
  end.

Definition field (s : string) : Prop := s <> EmptyString /\ no_space s = true.

(** The fields separated by single spaces. *)
Fixpoint join_fields (fields : list string) : string :=
  match fields with
  | [] => EmptyString
  | f :: rest =>
      match rest with
      | [] => f
      | _ => f ++ " " ++ join_fields rest
      end
  end.

(** The tail of a line after its last field: nothing, or text that
    starts with whitespace. *)
Definition separated (tail : string) : Prop :=
  match tail with
  | EmptyString => True
  | String c _ => Py.isspace c = true
  end.

(** The text of a list of lines. *)
Definition unlines (lines : list string) : string :=
  fold_right String.append EmptyString lines.

(** ** Sample files *)

Definition forward_gene : string := "orf00001 100 199 +1 9.51" ++ nl.
Definition reverse_gene : string := "orf00002 199 100 -2 7.30" ++ nl.
Definition both_strands : string := forward_gene ++ reverse_gene.

Definition scenario : string :=
  ">scaffold1" ++ nl ++ "CDS 1 300 + " ++ nl ++ "CDS 500 250 -" ++ nl.

Definition short_line : string := "orf00003 17" ++ nl.
Definition truncated : string := forward_gene ++ short_line ++ reverse_gene.

Definition headers_only : string :=
  ">scaffold1" ++ nl ++ ">scaffold2 length=5120" ++ nl.

Definition point_gene : string := "orf00004 42 42 +3 1.00" ++ nl.
Definition mixed_orientations : string :=
  ">scaffold7" ++ nl ++ forward_gene ++ reverse_gene ++ point_gene.

Definition annotated : string :=
  ">scaffold1" ++ nl ++ "orf00001 100 199 +1 9.51" ++ nl
  ++ "orf00002 900 250 -3 4.10" ++ nl.
Definition relabelled : string :=
  ">scaffold1" ++ nl ++ "geneA 100 199 -2 0.07" ++ nl
  ++ "geneB 900 250 +1 88.8" ++ nl.

(** A file whose first line has a bad start coordinate and whose second
    line is empty. *)
Definition bad_number_then_blank : string :=
  "orf00001 x 199 +1 9.51" ++ nl ++ nl.

Definition blank_between : string :=
  ">scaffold1" ++ nl ++ forward_gene ++ "  " ++ nl ++ reverse_gene.

(** ** Files written with a given line ending *)

Definition crlf : string := String Py.CR (String Py.LF EmptyString).

(** No line break inside the text. *)
Fixpoint no_break (s : string) : bool :=
  match s with
  | EmptyString => true
  | String c rest =>
      negb (Ascii.eqb c Py.CR) && negb (Ascii.eqb c Py.LF) && no_break rest
  end.

(** A line with its terminating LF, as the file iterator yields it. *)
Definition terminated (line : string) : string := line ++ nl.

(** The lines, each followed by [ending]. *)
Fixpoint with_line_ends (ending : string) (lines : list string) : string :=
  match lines with
  | [] => EmptyString
  | line :: rest => line ++ ending ++ with_line_ends ending rest
  end.

(** ** The report sections of the page *)

Module PyStr.

(** [s.split(sep)] for a one-character separator: the pieces between
    the separators, empty pieces included. *)
Fixpoint split_sep (sep : ascii) (s : string) : list string :=
  match s with
  | EmptyString => [EmptyString]
  | String c rest =>
      if Ascii.eqb c sep then EmptyString :: split_sep sep rest
      else
        match split_sep sep rest with
        | piece :: pieces => String c piece :: pieces
        | [] => [String c EmptyString]
        end
  end.

(** [xs[-1]] *)
Definition getitem_last {A : Type} (xs : list A) : result A :=
  match last xs with
  | Some x => Ok x
  | None => Raise IndexError
  end.

(** [needle in hay] on two strings. *)
Fixpoint contains (needle hay : string) : bool :=
  String.prefix needle hay
  || match hay with
     | String _ rest => contains needle rest
     | EmptyString => false
     end.

(** [sorted(paths)]: ascending in the order of [str], which compares
    code point by code point. *)
Definition sorted (paths : list string) : list string :=
  merge_sort String.le paths.

(** [bool(s)] *)
Definition truthy (s : string) : bool :=
  match s with
  | EmptyString => false
  | String _ _ => true
  end.

(** [file.read()] on a file object: all that is left to read, or
    UnicodeDecodeError when the bytes do not decode. *)
Definition read (file : text_file) : result string :=
  if decodes file then Ok (unlines (unread file))
  else Raise UnicodeDecodeError.

End PyStr.

(** The sections around the selection widget can also raise TypeError. *)
Inductive page_exn : Type :=
| TypeError
| Uncaught (e : exn).

Inductive outcome (A : Type) : Type :=
| Returns (a : A)
| Raises (e : page_exn).
Arguments Returns {A} a.
Arguments Raises {A} e.

(** What a section hands to the page: [st.components.v1.html],
    [st.error], or nothing. *)
Inductive display : Type :=
| Html (content : string)
| ErrorMessage (message : string)
| Nothing.

Definition slash : ascii := "/"%char.

(** [file.split('/')[-1]] *)
Definition file_name (file : string) : result string :=
  PyStr.getitem_last (PyStr.split_sep slash file).

(** [[file.split('/')[-1] for file in report_files]] *)
Fixpoint report_file_names (report_files : list string)
  : result (list string) :=
  match report_files with
  | [] => Ok []
  | file :: rest =>
      name ← file_name file;
      names ← report_file_names rest;
      Ok (name :: names)
  end.

(** [next((file for file in report_files if selected_report in file), "")]:
    the test is evaluated file by file, and [None in file] raises. *)
Fixpoint selected_report_path (selected_report : option string)
    (report_files : list string) : outcome string :=
  match report_files with
  | [] => Returns EmptyString
  | file :: rest =>
      match selected_report with
      | None => Raises TypeError
      | Some name =>
          if PyStr.contains name file then Returns file
          else selected_report_path selected_report rest
      end
  end.

(** The exception that opening and reading raises at a path that is
    not a readable text file. *)
Definition reading_raises (w : world) (path : string) : exn :=
  if has_nul path then ValueError
  else
    match obstacles w path with
    | None => FileNotFoundError
    | Some (Refuses e) => os_exn e
    | Some (Undecodable _) => UnicodeDecodeError
    end.

(** [with open(path, 'r') as file: report_content = file.read()] *)
Definition read_report (path : string) : io string :=
  with_open path (fun file w => (PyStr.read file, w)).

(** A FastQC section: [matches] is what [glob.glob] returned and
    [selectbox] the widget, which answers with one of the options it is
    given, or with [None] when it is given none. *)
Definition fastqc_section (matches : list string)
    (selectbox : list string -> option string)
  : world -> outcome display * world := fun w =>
  let report_files := PyStr.sorted matches in
  match report_file_names report_files with
  | Raise e => (Raises (Uncaught e), w)
  | Ok names =>
      let selected_report := selectbox names in
      match selected_report_path selected_report report_files with
      | Raises e => (Raises e, w)
      | Returns path =>
          if PyStr.truthy path then
            match read_report path w with
            | (Ok report_content, w') => (Returns (Html report_content), w')
            | (Raise e, w') => (Raises (Uncaught e), w')
            end
          else (Returns Nothing, w)
      end
  end.

(** The widget's contract. *)
Definition selectbox_answers (selectbox : list string -> option string)
  : Prop :=
  forall options,
    match options with
    | [] => selectbox options = None
    | _ => exists option, selectbox options = Some option /\ In option options
    end.

(** The widget as first shown: its first option. *)
Definition first_option (options : list string) : option string :=
  head options.

(** The widget after the user picked the option at [index]. *)
Definition option_at (index : nat) (options : list string) : option string :=
  match options !! index with
  | Some option => Some option
  | None => head options
  end.

Definition report_path : string := "report.html".

(** The f-string around the Quast report. *)
Definition styled_report_content (report_content : string) : string :=
  nl ++ "    <html>" ++ nl
  ++ "    <head>" ++ nl
  ++ "        <style>" ++ nl
  ++ "            body {" ++ nl
  ++ "                background-color: white !important;" ++ nl
  ++ "                color: black !important;" ++ nl
  ++ "            }" ++ nl
  ++ "        </style>" ++ nl
  ++ "    </head>" ++ nl
  ++ "    <body>" ++ nl
  ++ "        " ++ report_content ++ nl
  ++ "    </body>" ++ nl
  ++ "    </html>" ++ nl
  ++ "    ".

(** The Quast section: only FileNotFoundError is caught. *)
Definition quast_section : io display := fun w =>
  match read_report report_path w with
  | (Ok report_content, w') =>
      (Ok (Html (styled_report_content report_content)), w')
  | (Raise FileNotFoundError, w') =>
      (Ok (ErrorMessage "The file 'report.html' was not found."), w')
  | (Raise e, w') => (Raise e, w')
  end.

(** The Quast section followed by the gene-length section. *)
Definition quast_then_genes : io (display * list Z) := fun w =>
  match quast_section w with
  | (Raise e, w') => (Raise e, w')
  | (Ok shown, w') =>
      match gene_length_section w' with
      | (Ok lengths, w'') => (Ok (shown, lengths), w'')
      | (Raise e, w'') => (Raise e, w'')
      end
  end.

(** ** More sample files *)

(** A path with a NUL character in it. *)
Definition nul_path : string := "run_tres" ++ String Ascii.zero ".predict".

(** A world in which [report.html] is a regular file, so that no path
    leads below it. *)
Definition below_a_file : world :=
  {| files := {[ "report.html" := "" ]};
     obstacles := fun path =>
       if String.prefix "report.html/" path then Some (Refuses ENOTDIR)
       else None;
     open_files := 0 |}.

Definition two_fields_bad_start : string := "orf00005 12x" ++ nl.

Definition value_then_index : string :=
  forward_gene ++ "orf00006 7 seven" ++ nl ++ short_line.

Definition scenario_lines : list string :=
  [">scaffold1"; "CDS 1 300 + "; "CDS 500 250 -"].

Definition long_gene_file : string :=
  ">scaffold1" ++ nl ++ "orf00007 1 100000 +1 9.9" ++ nl
  ++ "orf00008 100001 1 -1 9.9" ++ nl ++ forward_gene.

Definition three_predictions : world :=
  {| files := {[ "a.predict" := scenario;
                 "b.predict" := both_strands;
                 "all.predict" := scenario ++ both_strands ]};
     obstacles := fun _ => None;
     open_files := 0 |}.

(** No '/' in the text. *)
Fixpoint no_slash (s : string) : bool :=
  match s with
  | EmptyString => true
  | String c rest => negb (Ascii.eqb c slash) && no_slash rest
  end.

(** A directory part: nothing, or text that ends with '/'. *)
Definition directory_part (dir : string) : Prop :=
  dir = EmptyString \/ exists d, dir = d ++ "/".

(** Two reports, the name of the second occurring inside the path of
    the first. *)
Definition overlapping_reports : list string :=
  ["fastqc_before/Aa.html"; "fastqc_before/a.html"].


(** A world with the predictions and no [report.html]. *)
Definition predictions_only : world := one_file file_path scenario.

Definition reports_world : world :=
  {| files := {[ "fastqc_before/Aa.html" := "<html>first</html>";
                 "fastqc_before/a.html" := "<html>second</html>" ]};
     obstacles := fun _ => None;
     open_files := 0 |}.

(** * Properties *)

(** ** Evaluation on sample files *)

Ltac lines_by_evaluation contents :=
  let lines := eval vm_compute in (Py.readlines contents) in
  change (Py.readlines contents) with lines.

Ltac coordinates_by_evaluation :=
  unfold coordinates; eexists _, _; repeat split; vm_compute; reflexivity.

Ltac well_formed_by_evaluation :=
  first
    [ left; vm_compute; reflexivity
    | right; split; [vm_compute; reflexivity |];
      eexists _, _; coordinates_by_evaluation ].

Ltac agree_by_evaluation :=
  first
    [ left; reflexivity
    | right; repeat split; vm_compute; reflexivity ].

(** ** The built-ins *)

Lemma iter_lines_unlines (s : string) : unlines (Py.iter_lines s) = s.
Proof.
  unfold unlines.
  induction s as [|c rest IH]; cbn; [reflexivity |].
  destruct (Ascii.eqb c Py.LF); cbn.
  - now rewrite IH.
  - destruct (Py.iter_lines rest) as [|line lines]; cbn in *.
    + now rewrite <- IH.
    + rewrite <- IH. reflexivity.
Qed.

Lemma split_lstrip (s : string) :
  Py.split (Py.lstrip s) = Py.split s.
Proof.
  unfold Py.split. induction s as [|c rest IH]; cbn; [reflexivity |].
  destruct (Py.isspace c) eqn:Hc; cbn; [assumption |].
  now rewrite Hc.
Qed.

Lemma split_scan_rstrip (s word : string) :
  Py.split_scan word (Py.rstrip s) = Py.split_scan word s.
Proof.
  revert word. induction s as [|c rest IH]; intros word; cbn; [reflexivity |].
  destruct (Py.rstrip rest) as [|k kept] eqn:Hkept.
  - destruct (Py.isspace c) eqn:Hc; cbn.
    + now rewrite <- (IH EmptyString).
    + rewrite Hc. now rewrite <- (IH (String c word)).
  - cbn. destruct (Py.isspace c); now rewrite <- IH.
Qed.

(** [strip] before [split] changes nothing: the fields of a line are the
    fields of the line as read. *)
Lemma fields_of_split (line : string) : fields_of line = Py.split line.
Proof.
  unfold fields_of, Py.strip, Py.split.
  rewrite split_scan_rstrip. apply split_lstrip.
Qed.

Lemma rev_app_rev_app (a b c : string) :
  String.rev_app (String.rev_app a b) c = String.rev_app b (a ++ c).
Proof.
  revert b c. induction a as [|x a IH]; intros b c; [reflexivity |].
  cbn [String.rev_app]. rewrite IH. reflexivity.
Qed.

Lemma append_empty (a : string) : a ++ EmptyString = a.
Proof.
  induction a as [|x a IH]; [reflexivity |].
  change (String x (a ++ EmptyString) = String x a). now rewrite IH.
Qed.

Lemma append_assoc (a b c : string) : (a ++ b) ++ c = a ++ (b ++ c).
Proof.
  induction a as [|x a IH]; [reflexivity |].
  change (String x ((a ++ b) ++ c) = String x (a ++ (b ++ c))).
  now rewrite IH.
Qed.

Lemma rev_rev (f : string) : String.rev (String.rev f) = f.
Proof.
  unfold String.rev. rewrite rev_app_rev_app. apply append_empty.
Qed.

Lemma rev_not_empty (f : string) :
  f <> EmptyString -> String.rev f <> EmptyString.
Proof.
  intros Hf Hrev. apply Hf. rewrite <- (rev_rev f). now rewrite Hrev.
Qed.

Lemma emit_field (f : string) (fields : list string) :
  f <> EmptyString -> Py.emit (String.rev f) fields = f :: fields.
Proof.
  intros Hf. pose proof (rev_not_empty f Hf) as Hrev.
  unfold Py.emit. destruct (String.rev f) as [|c r] eqn:Hr; [congruence |].
  rewrite <- Hr. now rewrite rev_rev.
Qed.

Lemma split_scan_field (f word rest : string) :
  no_space f = true ->
  Py.split_scan word (f ++ rest) = Py.split_scan (String.rev_app f word) rest.
Proof.
  revert word. induction f as [|c f IH]; intros word; [reflexivity |].
  cbn [no_space]. intros [Hc Hf]%andb_true_iff. apply negb_true_iff in Hc.
  change (String c f ++ rest) with (String c (f ++ rest)).
  cbn [Py.split_scan String.rev_app]. rewrite Hc. now apply IH.
Qed.

(** [split] gives back the fields a line was written from. *)
Lemma split_join_fields (fields : list string) (tail : string) :
  Forall field fields -> fields <> [] -> separated tail ->
  Py.split (join_fields fields ++ tail) = (fields ++ Py.split tail)%list.
Proof.
  unfold Py.split. intros Hfields.
  induction Hfields as [|f rest [Hne Hns] Hrest IH]; [congruence |].
  intros _ Htail. cbn [join_fields].
  destruct rest as [|g rest].
  - rewrite split_scan_field by assumption. fold (String.rev f).
    destruct tail as [|c tail]; cbn [Py.split_scan].
    + now rewrite emit_field.
    + cbn [separated] in Htail. rewrite Htail.
      now rewrite emit_field.
  - rewrite !append_assoc. rewrite split_scan_field by assumption.
    fold (String.rev f).
    change (" " ++ join_fields (g :: rest) ++ tail)
      with (String " "%char (join_fields (g :: rest) ++ tail)).
    cbn [Py.split_scan]. change (Py.isspace " "%char) with true. cbn match.
    rewrite emit_field by assumption.
    rewrite IH by (congruence || assumption). reflexivity.
Qed.

Lemma join_fields_header (f : string) (fields : list string) (tail : string) :
  f <> EmptyString ->
  is_header (join_fields (f :: fields) ++ tail) = Py.startswith header_marker f.
Proof.
  intros Hf. destruct f as [|c f]; [congruence |].
  unfold is_header. cbn [join_fields]. now destruct fields.
Qed.

(** Rewriting field 0 and the fields from index 3 on of a data line
    leaves a line that agrees with it. *)
Lemma rewritten_line_agrees
    (f0 g0 f1 f2 : string) (more more' : list string) :
  Forall field (f0 :: f1 :: f2 :: more) ->
  Forall field (g0 :: f1 :: f2 :: more') ->
  Py.startswith header_marker f0 = false ->
  Py.startswith header_marker g0 = false ->
  agree (join_fields (f0 :: f1 :: f2 :: more) ++ nl)
        (join_fields (g0 :: f1 :: f2 :: more') ++ nl).
Proof.
  intros Hf Hg Hf0 Hg0. right.
  assert (Hsep : separated nl) by reflexivity.
  unfold same_coordinate_fields. rewrite !fields_of_split.
  rewrite !split_join_fields by (assumption || congruence).
  rewrite !join_fields_header.
  - auto.
  - apply Forall_inv in Hg. apply Hg.
  - apply Forall_inv in Hf. apply Hf.
Qed.

(** ** The world and the [with] block *)

Lemma world_eta (w : world) :
  {| files := files w; obstacles := obstacles w;
     open_files := Nat.pred (S (open_files w)) |} = w.
Proof. destruct w; reflexivity. Qed.

Lemma extract_existing (path contents : string) (w : world) :
  files w !! path = Some contents ->
  extract_gene_lengths path w = (for_lines (Py.readlines contents) [], w).
Proof.
  intros Hfile. unfold extract_gene_lengths, with_open, open.
  rewrite Hfile. cbn. rewrite world_eta. unfold for_file. cbn.
  now destruct (for_lines (Py.readlines contents) []).
Qed.

Lemma extract_missing (path : string) (w : world) :
  nothing_at w path ->
  extract_gene_lengths path w = (Raise FileNotFoundError, w).
Proof.
  intros (Hfile & Hobstacle & Hnul).
  unfold extract_gene_lengths, with_open, open.
  now rewrite Hfile, Hnul, Hobstacle.
Qed.

Lemma extract_nul (path : string) (w : world) :
  files w !! path = None -> has_nul path = true ->
  extract_gene_lengths path w = (Raise ValueError, w).
Proof.
  intros Hfile Hnul. unfold extract_gene_lengths, with_open, open.
  now rewrite Hfile, Hnul.
Qed.

Lemma extract_refused (path : string) (w : world) (e : os_error) :
  files w !! path = None -> has_nul path = false ->
  obstacles w path = Some (Refuses e) ->
  extract_gene_lengths path w = (Raise (os_exn e), w).
Proof.
  intros Hfile Hnul Hobstacle.
  unfold extract_gene_lengths, with_open, open.
  now rewrite Hfile, Hnul, Hobstacle.
Qed.

Lemma extract_undecodable (path : string) (w : world)
    (decoded : list string) :
  files w !! path = None -> has_nul path = false ->
  obstacles w path = Some (Undecodable decoded) ->
  extract_gene_lengths path w
  = (_ ← for_lines decoded []; Raise UnicodeDecodeError, w).
Proof.
  intros Hfile Hnul Hobstacle.
  unfold extract_gene_lengths, with_open, open.
  rewrite Hfile, Hnul, Hobstacle. cbn. now rewrite world_eta.
Qed.

(** Whatever stands at a path that is not a readable text file, the
    call raises and the file, if it was opened, is closed again. *)
Lemma extract_unreadable (path : string) (w : world) :
  files w !! path = None ->
  exists e, extract_gene_lengths path w = (Raise e, w).
Proof.
  intros Hfile. destruct (has_nul path) eqn:Hnul.
  { rewrite extract_nul by assumption. eauto. }
  destruct (obstacles w path) as [[e | decoded]|] eqn:Hobstacle.
  - rewrite (extract_refused path w e) by assumption. eauto.
  - rewrite (extract_undecodable path w decoded) by assumption.
    destruct (for_lines decoded []); cbn; eauto.
  - rewrite extract_missing by (repeat split; assumption). eauto.
Qed.

Lemma lookup_one_file (path contents : string) :
  files (one_file path contents) !! path = Some contents.
Proof. unfold one_file; cbn. apply lookup_singleton_eq. Qed.

(** ** One line *)

Lemma int_cases (s : string) :
  (exists v, Py.int s = Ok v) \/ Py.int s = Raise ValueError.
Proof. unfold Py.int. destruct (Py.int_literal s); eauto. Qed.

Lemma loop_body_header (line : string) (acc : list Z) :
  is_header line = true -> loop_body line acc = Ok acc.
Proof. unfold is_header, loop_body. now intros ->. Qed.

Lemma loop_body_data (line : string) (acc : list Z) (start end_ : Z) :
  is_header line = false ->
  coordinates line start end_ ->
  loop_body line acc = Ok (acc ++ [span start end_])%list.
Proof.
  intros Hdata (field1 & field2 & H1 & H2 & Hs & He).
  unfold is_header in Hdata. unfold fields_of in H1, H2.
  unfold loop_body, Py.getitem. rewrite Hdata, H1. cbn.
  rewrite Hs. cbn. rewrite H2. cbn. rewrite He. reflexivity.
Qed.

Lemma loop_body_outcome (line : string) (acc : list Z) :
  body_outcome line acc (loop_body line acc).
Proof.
  destruct (is_header line) eqn:Hh.
  { rewrite loop_body_header by assumption. now constructor. }
  unfold loop_body. unfold is_header in Hh. rewrite Hh.
  fold (fields_of line). fold (is_header line) in Hh.
  unfold Py.getitem.
  destruct (fields_of line !! 1%nat) as [field1|] eqn:H1; cbn.
  2:{ apply outcome_raise; [assumption | now left |].
      split; [assumption | left].
      apply lookup_ge_None in H1. lia. }
  destruct (int_cases field1) as [[start Hs] | Hs]; rewrite Hs; cbn.
  2:{ apply outcome_raise; [assumption | now right |].
      split; [assumption | right; left; eauto]. }
  destruct (fields_of line !! 2%nat) as [field2|] eqn:H2; cbn.
  2:{ apply outcome_raise; [assumption | now left |].
      split; [assumption | left].
      apply lookup_ge_None in H2. lia. }
  destruct (int_cases field2) as [[end_ He] | He]; rewrite He; cbn.
  2:{ apply outcome_raise; [assumption | now right |].
      split; [assumption | right; right; eauto]. }
  apply (outcome_data line acc start end_); [assumption |].
  exists field1, field2. auto.
Qed.

Lemma loop_body_malformed (line : string) (acc : list Z) :
  malformed line ->
  exists e, parse_error e /\ loop_body line acc = Raise e.
Proof.
  intros [Hdata Hbad].
  destruct (loop_body_outcome line acc) as [Hh | start end_ _ Hc | e _ He _].
  - congruence.
  - exfalso. destruct Hc as (field1 & field2 & H1 & H2 & Hs & He).
    destruct Hbad as [Hlen | [(f & Hf & Hv) | (f & Hf & Hv)]].
    + apply lookup_lt_Some in H2. lia.
    + congruence.
    + congruence.
  - eauto.
Qed.

Lemma span_positive (start end_ : Z) : (1 <= span start end_)%Z.
Proof. unfold span. lia. Qed.

(** ** The loop *)

Lemma for_lines_app (before after : list string) (acc : list Z) :
  for_lines (before ++ after) acc =
  (acc' ← for_lines before acc; for_lines after acc').
Proof.
  revert acc. induction before as [|line before IH]; intros acc; cbn.
  - reflexivity.
  - destruct (loop_body line acc) as [acc'|e]; cbn; [apply IH | reflexivity].
Qed.

Lemma for_lines_raise (file : list string) (acc : list Z) (e : exn) :
  for_lines file acc = Raise e -> parse_error e.
Proof.
  revert acc. induction file as [|line file IH]; intros acc; cbn.
  - discriminate.
  - destruct (loop_body_outcome line acc) as [Hh | start end_ _ Hc | e' _ He _];
      cbn; eauto.
    now intros [= <-].
Qed.

Lemma for_lines_malformed (file : list string) (line : string)
    (acc : list Z) :
  In line file -> malformed line ->
  exists e, parse_error e /\ for_lines file acc = Raise e.
Proof.
  intros Hin Hbad. revert acc.
  induction file as [|first file IH]; intros acc; [destruct Hin |].
  cbn. destruct (loop_body first acc) as [acc'|e] eqn:Hbody; cbn.
  - destruct Hin as [-> | Hin]; [| now apply IH].
    destruct (loop_body_malformed line acc Hbad) as (e & _ & He). congruence.
  - exists e. split; [| reflexivity].
    destruct (loop_body_outcome first acc); congruence.
Qed.

Lemma for_lines_skip_headers (file : list string) (acc : list Z) :
  for_lines file acc = for_lines (List.filter is_data file) acc.
Proof.
  revert acc. induction file as [|line file IH]; intros acc; cbn.
  - reflexivity.
  - unfold is_data at 1. destruct (is_header line) eqn:Hh; cbn.
    + rewrite loop_body_header by assumption. cbn. apply IH.
    + destruct (loop_body line acc); cbn; [apply IH | reflexivity].
Qed.

Lemma for_lines_well_formed (file : list string) (acc : list Z) :
  Forall well_formed file ->
  exists out,
    for_lines file acc = Ok (acc ++ out)%list /\
    Forall2 length_of (List.filter is_data file) out.
Proof.
  intros Hwf. revert acc.
  induction Hwf as [|line file Hline _ IH]; intros acc; cbn.
  - exists []. split; [now rewrite app_nil_r | constructor].
  - unfold is_data at 1.
    destruct Hline as [Hh | (Hh & start & end_ & Hc)]; rewrite Hh; cbn.
    + rewrite loop_body_header by assumption. cbn. apply IH.
    + rewrite (loop_body_data line acc start end_) by assumption. cbn.
      destruct (IH (acc ++ [span start end_])%list) as (out & Hrun & Hout).
      exists (span start end_ :: out). split.
      * rewrite Hrun. now rewrite <- app_assoc.
      * constructor; [| assumption]. exists start, end_. auto.
Qed.

Lemma for_lines_positive (file : list string) (acc out : list Z) :
  for_lines file acc = Ok out ->
  Forall (fun v => (1 <= v)%Z) acc ->
  Forall (fun v => (1 <= v)%Z) out.
Proof.
  revert acc. induction file as [|line file IH]; intros acc; cbn.
  - now intros [= <-].
  - destruct (loop_body_outcome line acc) as [Hh | start end_ _ Hc | e _ He _];
      cbn; [eauto | | discriminate].
    intros Hrun Hacc. apply (IH _ Hrun).
    apply Forall_app. split; [assumption |].
    constructor; [apply span_positive | constructor].
Qed.

(** ** Blank lines *)

Lemma blank_lstrip (line : string) :
  blank line = true -> Py.lstrip line = EmptyString.
Proof.
  induction line as [|c rest IH]; cbn; [reflexivity |].
  intros [Hc Hrest]%andb_true_iff. rewrite Hc. now apply IH.
Qed.

Lemma blank_fields (line : string) :
  blank line = true -> fields_of line = [].
Proof.
  intros Hblank. unfold fields_of, Py.strip.
  now rewrite blank_lstrip.
Qed.

Lemma blank_not_header (line : string) :
  blank line = true -> is_header line = false.
Proof.
  destruct line as [|c rest]; cbn; [reflexivity |].
  intros [Hc _]%andb_true_iff. unfold is_header; cbn.
  destruct (Ascii.eqb_spec c header_marker) as [-> |];
    [discriminate | reflexivity].
Qed.

Lemma blank_raises (line : string) (acc : list Z) :
  blank line = true -> loop_body line acc = Raise IndexError.
Proof.
  intros Hblank. unfold loop_body.
  pose proof (blank_not_header line Hblank) as Hh. unfold is_header in Hh.
  rewrite Hh. fold (fields_of line). now rewrite blank_fields.
Qed.

Lemma blank_malformed (line : string) :
  blank line = true -> malformed line.
Proof.
  intros Hblank. split; [now apply blank_not_header |].
  left. rewrite blank_fields by assumption. cbn. lia.
Qed.

(** ** The length cut-off *)

Lemma df_In (lengths : list Z) (x : Z) :
  In x (df lengths) <-> In x lengths /\ (x <= 100000)%Z.
Proof.
  unfold df. rewrite filter_In. now rewrite Z.leb_le.
Qed.

Lemma df_sublist (lengths : list Z) : sublist (df lengths) lengths.
Proof.
  unfold df. induction lengths as [|x lengths IH]; cbn.
  - constructor.
  - destruct (x <=? 100000)%Z; now constructor.
Qed.

Lemma df_count (lengths : list Z) (x : Z) :
  (x <= 100000)%Z ->
  count_occ Z.eq_dec (df lengths) x = count_occ Z.eq_dec lengths x.
Proof.
  intros Hx. unfold df.
  induction lengths as [|y lengths IH]; cbn; [reflexivity |].
  destruct (Z.leb_spec y 100000); cbn.
  - destruct (Z.eq_dec y x); now rewrite IH.
  - destruct (Z.eq_dec y x); [lia | assumption].
Qed.

(** ** Lines that agree on their coordinates *)

Lemma loop_body_agree (line1 line2 : string) (acc : list Z) :
  agree line1 line2 -> loop_body line1 acc = loop_body line2 acc.
Proof.
  intros [-> | (Hh1 & Hh2 & H1 & H2)]; [reflexivity |].
  unfold is_header in Hh1, Hh2. unfold fields_of in H1, H2.
  unfold loop_body, Py.getitem. now rewrite Hh1, Hh2, H1, H2.
Qed.

Lemma for_lines_agree (file1 file2 : list string) (acc : list Z) :
  Forall2 agree file1 file2 -> for_lines file1 acc = for_lines file2 acc.
Proof.
  intros Hagree. revert acc.
  induction Hagree as [|line1 line2 file1 file2 Hline _ IH]; intros acc; cbn.
  - reflexivity.
  - rewrite (loop_body_agree line1 line2 acc Hline).
    destruct (loop_body line2 acc); cbn; [apply IH | reflexivity].
Qed.

(** * The specification's properties *)

(** A file of the format evaluates to what the format's description
    expects. *)
Example scenario_lengths :
  fst (extract_gene_lengths file_path (one_file file_path scenario))
  = Ok [300; 251]%Z.
Proof. vm_compute. reflexivity. Qed.

(** C1: when the loop reaches a line that does not start with '>' and
    whose fields 1 and 2 read as the integers [start] and [end_], it
    appends exactly [abs(end_ - start) + 1] to the lengths collected so
    far and goes on with the rest of the file; the run of
    [extract_gene_lengths] is the run over the lines before, that one
    value appended, then the run over the lines after. *)
Theorem data_line_appends_inclusive_span
    (w : world) (path contents : string)
    (before after : list string) (line : string)
    (start end_ : Z) (gene_lengths : list Z) :
  files w !! path = Some contents ->
  Py.readlines contents = (before ++ line :: after)%list ->
  is_header line = false ->
  coordinates line start end_ ->
  loop_body line gene_lengths
    = Ok (gene_lengths ++ [(Z.abs (end_ - start) + 1)%Z])%list /\
  fst (extract_gene_lengths path w)
    = (collected ← for_lines before [];
       for_lines after (collected ++ [(Z.abs (end_ - start) + 1)%Z])%list).
Proof.
  intros Hfile Hlines Hdata Hc. split.
  - now apply loop_body_data.
  - rewrite (extract_existing path contents w Hfile). cbn [fst].
    rewrite Hlines, for_lines_app.
    destruct (for_lines before []) as [collected|e]; cbn; [| reflexivity].
    now rewrite (loop_body_data line collected start end_).
Qed.

(** A line with start 100 and end 199 yields 100, and so does the line
    with the two coordinates exchanged. *)
Lemma data_line_appends_inclusive_span_witness :
  loop_body forward_gene [] = Ok [100%Z] /\
  loop_body reverse_gene [] = Ok [100%Z] /\
  fst (extract_gene_lengths file_path (one_file file_path both_strands))
  = Ok [100%Z; 100%Z].
Proof.
  pose proof (data_line_appends_inclusive_span
                (one_file file_path both_strands) file_path both_strands
                [] [reverse_gene] forward_gene 100 199 []) as Hfwd.
  pose proof (data_line_appends_inclusive_span
                (one_file file_path both_strands) file_path both_strands
                [forward_gene] [] reverse_gene 199 100 []) as Hrev.
  destruct Hfwd as [Hfwd Hrun];
    [ apply lookup_one_file | vm_compute; reflexivity
    | vm_compute; reflexivity | coordinates_by_evaluation | ].
  destruct Hrev as [Hrev _];
    [ apply lookup_one_file | vm_compute; reflexivity
    | vm_compute; reflexivity | coordinates_by_evaluation | ].
  split; [exact Hfwd |]. split; [exact Hrev |].
  rewrite Hrun. vm_compute. reflexivity.
Defined.

(** C2: on a file in which every line is a header or a data line with
    integer coordinates, [extract_gene_lengths] returns one length per
    data line, in the order of the data lines: the result has as many
    elements as there are data lines and its i-th element is the length
    of the i-th data line. *)
Theorem one_length_per_data_line_in_order
    (w : world) (path contents : string) :
  files w !! path = Some contents ->
  Forall well_formed (Py.readlines contents) ->
  exists gene_lengths,
    extract_gene_lengths path w = (Ok gene_lengths, w) /\
    length gene_lengths
      = length (List.filter is_data (Py.readlines contents)) /\
    Forall2 length_of (List.filter is_data (Py.readlines contents))
      gene_lengths.
Proof.
  intros Hfile Hwf.
  destruct (for_lines_well_formed (Py.readlines contents) [] Hwf)
    as (out & Hrun & Hout).
  exists out. rewrite (extract_existing path contents w Hfile).
  split; [now rewrite Hrun |].
  split; [| assumption].
  symmetry. apply (Forall2_length _ _ _ Hout).
Qed.

Lemma one_length_per_data_line_in_order_witness :
  exists gene_lengths,
    extract_gene_lengths file_path (one_file file_path scenario)
      = (Ok gene_lengths, one_file file_path scenario) /\
    length gene_lengths = 2%nat /\
    Forall2 length_of
      (List.filter is_data (Py.readlines scenario)) gene_lengths.
Proof.
  apply (one_length_per_data_line_in_order
           (one_file file_path scenario) file_path scenario).
  - apply lookup_one_file.
  - lines_by_evaluation scenario.
    repeat (constructor; [well_formed_by_evaluation |]). constructor.
Defined.

Lemma malformed_line_in_file
    (w : world) (path contents : string) (line : string) :
  files w !! path = Some contents ->
  In line (Py.readlines contents) ->
  malformed line ->
  exists e, parse_error e /\
            extract_gene_lengths path w = (Raise e, w).
Proof.
  intros Hfile Hin Hbad.
  destruct (for_lines_malformed (Py.readlines contents) line [] Hin Hbad)
    as (e & He & Hrun).
  exists e. split; [assumption |].
  rewrite (extract_existing path contents w Hfile). now rewrite Hrun.
Qed.

(** C3: if some non-header line of the file has fewer than three
    whitespace-separated fields, or its field 1 or field 2 is not an
    integer literal, the call raises a parse error (IndexError for a
    missing field, ValueError for a bad literal): it returns no list. *)
Theorem malformed_line_fails_the_call
    (w : world) (path contents : string) (line : string) :
  files w !! path = Some contents ->
  In line (Py.readlines contents) ->
  malformed line ->
  exists e, parse_error e /\
            extract_gene_lengths path w = (Raise e, w).
Proof.
  apply malformed_line_in_file.
Qed.

Lemma malformed_line_fails_the_call_witness :
  exists e, parse_error e /\
            extract_gene_lengths file_path (one_file file_path truncated)
            = (Raise e, one_file file_path truncated).
Proof.
  apply (malformed_line_fails_the_call
           (one_file file_path truncated) file_path truncated short_line).
  - apply lookup_one_file.
  - vm_compute. right. left. reflexivity.
  - split; [vm_compute; reflexivity |]. left. vm_compute. lia.
Defined.

(** A path with a NUL character names no file, and a path below a
    regular file names none either; yet for neither does the call raise
    FileNotFoundError: it raises ValueError for the first and
    NotADirectoryError for the second. *)
Lemma path_that_names_no_file_raises_another_error :
  files (one_file "report.html" "") !! nul_path = None /\
  extract_gene_lengths nul_path (one_file "report.html" "")
    = (Raise ValueError, one_file "report.html" "") /\
  fst (extract_gene_lengths nul_path (one_file "report.html" ""))
    <> Raise FileNotFoundError /\
  files below_a_file !! "report.html/run_tres.predict" = None /\
  extract_gene_lengths "report.html/run_tres.predict" below_a_file
    = (Raise NotADirectoryError, below_a_file) /\
  fst (extract_gene_lengths "report.html/run_tres.predict" below_a_file)
    <> Raise FileNotFoundError.
Proof.
  split; [vm_compute; reflexivity |].
  split; [vm_compute; reflexivity |].
  split; [vm_compute; discriminate |].
  split; [vm_compute; reflexivity |].
  split; [vm_compute; reflexivity |].
  vm_compute. discriminate.
Qed.

(** C4 (amended): for a path that names no readable text file the call
    raises and returns no list, empty or otherwise, and the file is not
    left open.  The exception is FileNotFoundError where nothing at all
    stands at the path, and then, for the script's own path, it leaves
    the gene-length section as it is, the script calling the extractor
    outside any handler; it is ValueError for a path with a NUL
    character, and the error of the system's refusal otherwise. *)
Theorem missing_file_raises_not_found (w : world) (path : string) :
  files w !! path = None ->
  (exists e, extract_gene_lengths path w = (Raise e, w)) /\
  (forall gene_lengths,
      fst (extract_gene_lengths path w) <> Ok gene_lengths) /\
  (nothing_at w path ->
   extract_gene_lengths path w = (Raise FileNotFoundError, w) /\
   (path = file_path ->
    gene_length_section w = (Raise FileNotFoundError, w))) /\
  (has_nul path = true ->
   extract_gene_lengths path w = (Raise ValueError, w)) /\
  (forall e,
      has_nul path = false ->
      obstacles w path = Some (Refuses e) ->
      extract_gene_lengths path w = (Raise (os_exn e), w)).
Proof.
  intros Hfile.
  destruct (extract_unreadable path w Hfile) as [e Hrun].
  split; [eauto |]. split.
  { intros gene_lengths. now rewrite Hrun. }
  split.
  { intros Hnothing.
    pose proof (extract_missing path w Hnothing) as Hmissing.
    split; [assumption |].
    intros ->. unfold gene_length_section. now rewrite Hmissing. }
  split.
  - intros Hnul. now apply extract_nul.
  - intros r Hnul Hobstacle. now apply extract_refused.
Qed.

Lemma missing_file_raises_not_found_witness :
  extract_gene_lengths file_path (one_file "report.html" "")
  = (Raise FileNotFoundError, one_file "report.html" "").
Proof.
  destruct (missing_file_raises_not_found
              (one_file "report.html" "") file_path)
    as (_ & _ & Hnothing & _).
  - vm_compute. reflexivity.
  - destruct Hnothing as [Hraise _].
    + repeat split; vm_compute; reflexivity.
    + exact Hraise.
Defined.

(** C5: the cut-off keeps exactly the lengths that are at most 100000:
    a length is in the filtered frame iff it was extracted and is
    <= 100000, so 100000 stays and 100001 goes; the kept lengths appear
    in their original order and as often as before. *)
Theorem cutoff_keeps_at_most_100000 (predicted_gene_lengths : list Z) :
  (forall x, In x (df predicted_gene_lengths)
             <-> In x predicted_gene_lengths /\ (x <= 100000)%Z) /\
  sublist (df predicted_gene_lengths) predicted_gene_lengths /\
  (forall x, (x <= 100000)%Z ->
             count_occ Z.eq_dec (df predicted_gene_lengths) x
             = count_occ Z.eq_dec predicted_gene_lengths x) /\
  df (predicted_gene_lengths ++ [100000%Z])
    = (df predicted_gene_lengths ++ [100000%Z])%list /\
  df (predicted_gene_lengths ++ [100001%Z]) = df predicted_gene_lengths.
Proof.
  split; [apply df_In |]. split; [apply df_sublist |].
  split; [apply df_count |].
  unfold df. rewrite !List.filter_app. cbn. split; [reflexivity |].
  apply app_nil_r.
Qed.

(** C6: header lines contribute nothing: the call on a file gives what
    the loop gives on the file's data lines alone, and on a file whose
    lines all start with '>' it returns the empty list. *)
Theorem header_lines_are_skipped (w : world) (path contents : string) :
  files w !! path = Some contents ->
  fst (extract_gene_lengths path w)
    = for_lines (List.filter is_data (Py.readlines contents)) [] /\
  (Forall (fun line => is_header line = true) (Py.readlines contents) ->
   extract_gene_lengths path w = (Ok [], w)).
Proof.
  intros Hfile. rewrite (extract_existing path contents w Hfile). cbn [fst].
  split; [apply for_lines_skip_headers |].
  intros Hall. rewrite for_lines_skip_headers.
  replace (List.filter is_data (Py.readlines contents)) with (@nil string);
    [reflexivity |].
  induction Hall as [|line file Hline _ IH]; cbn; [reflexivity |].
  unfold is_data at 1. now rewrite Hline.
Qed.

Lemma header_lines_are_skipped_witness :
  extract_gene_lengths file_path (one_file file_path headers_only)
  = (Ok [], one_file file_path headers_only).
Proof.
  destruct (header_lines_are_skipped
              (one_file file_path headers_only) file_path headers_only)
    as [_ Hempty].
  - apply lookup_one_file.
  - apply Hempty. lines_by_evaluation headers_only.
    repeat (constructor; [vm_compute; reflexivity |]). constructor.
Defined.

(** C7: on a file in which every line is a header or a data line with
    integer coordinates, the call returns a list and every element of it
    is an integer that is at least 1, whichever of start and end is the
    larger and also when they are equal. *)
Theorem every_length_is_positive (w : world) (path contents : string) :
  files w !! path = Some contents ->
  Forall well_formed (Py.readlines contents) ->
  exists gene_lengths,
    extract_gene_lengths path w = (Ok gene_lengths, w) /\
    Forall (fun gene_length => (1 <= gene_length)%Z) gene_lengths.
Proof.
  intros Hfile Hwf.
  destruct (for_lines_well_formed (Py.readlines contents) [] Hwf)
    as (out & Hrun & _).
  exists out. rewrite (extract_existing path contents w Hfile).
  split; [now rewrite Hrun |].
  apply (for_lines_positive (Py.readlines contents) [] out Hrun).
  constructor.
Qed.

Lemma every_length_is_positive_witness :
  exists gene_lengths,
    extract_gene_lengths file_path (one_file file_path mixed_orientations)
      = (Ok gene_lengths, one_file file_path mixed_orientations) /\
    Forall (fun gene_length => (1 <= gene_length)%Z) gene_lengths.
Proof.
  apply (every_length_is_positive
           (one_file file_path mixed_orientations) file_path
           mixed_orientations).
  - apply lookup_one_file.
  - lines_by_evaluation mixed_orientations.
    repeat (constructor; [well_formed_by_evaluation |]). constructor.
Defined.

(** C8: only fields 1 and 2 of a data line matter: if two files have
    line by line either the same line or two data lines with the same
    field 1 and the same field 2 (field 0 and the fields from index 3 on
    may differ), the two calls give the same outcome, the same list or
    the same exception. *)
Theorem only_fields_1_and_2_matter
    (w1 w2 : world) (path1 path2 contents1 contents2 : string) :
  files w1 !! path1 = Some contents1 ->
  files w2 !! path2 = Some contents2 ->
  Forall2 agree (Py.readlines contents1) (Py.readlines contents2) ->
  fst (extract_gene_lengths path1 w1) = fst (extract_gene_lengths path2 w2).
Proof.
  intros Hfile1 Hfile2 Hagree.
  rewrite (extract_existing path1 contents1 w1 Hfile1).
  rewrite (extract_existing path2 contents2 w2 Hfile2).
  cbn [fst]. now apply for_lines_agree.
Qed.

Lemma only_fields_1_and_2_matter_witness :
  fst (extract_gene_lengths file_path (one_file file_path annotated))
  = fst (extract_gene_lengths file_path (one_file file_path relabelled)).
Proof.
  apply (only_fields_1_and_2_matter
           (one_file file_path annotated) (one_file file_path relabelled)
           file_path file_path annotated relabelled).
  - apply lookup_one_file.
  - apply lookup_one_file.
  - lines_by_evaluation annotated. lines_by_evaluation relabelled.
    repeat (constructor; [agree_by_evaluation |]). constructor.
Defined.

(** [bad_number_then_blank] contains an empty line, yet the call does not raise
    IndexError: the bad literal on the line before raises ValueError
    first. *)
Lemma blank_line_after_bad_number_raises_value_error :
  files (one_file file_path bad_number_then_blank) !! file_path
    = Some bad_number_then_blank /\
  In nl (Py.readlines bad_number_then_blank) /\
  blank nl = true /\
  is_header nl = false /\
  fst (extract_gene_lengths file_path
         (one_file file_path bad_number_then_blank))
    = Raise ValueError /\
  fst (extract_gene_lengths file_path
         (one_file file_path bad_number_then_blank))
    <> Raise IndexError.
Proof.
  split; [apply lookup_one_file |].
  split; [vm_compute; right; left; reflexivity |].
  split; [vm_compute; reflexivity |].
  split; [vm_compute; reflexivity |].
  split; [vm_compute; reflexivity |].
  vm_compute. discriminate.
Qed.

(** C10 (amended): a file that contains an empty or whitespace-only line
    makes the call fail: the blank line is not skipped, it is read as a
    data line without fields.  The exception is IndexError whenever
    every line before the first blank one is a header or a data line
    with integer coordinates; otherwise it is the parse error of the
    earlier malformed line. *)
Theorem blank_line_fails_the_call
    (w : world) (path contents : string)
    (before after : list string) (line : string) :
  files w !! path = Some contents ->
  Py.readlines contents = (before ++ line :: after)%list ->
  blank line = true ->
  (forall gene_lengths, loop_body line gene_lengths = Raise IndexError) /\
  (exists e, parse_error e /\
             extract_gene_lengths path w = (Raise e, w)) /\
  (Forall well_formed before ->
   extract_gene_lengths path w = (Raise IndexError, w)).
Proof.
  intros Hfile Hlines Hblank.
  split; [intros gene_lengths; now apply blank_raises |]. split.
  - apply (malformed_line_in_file w path contents line Hfile).
    + rewrite Hlines. apply in_or_app. right. now left.
    + now apply blank_malformed.
  - intros Hwf. rewrite (extract_existing path contents w Hfile).
    rewrite Hlines, for_lines_app.
    destruct (for_lines_well_formed before [] Hwf) as (out & Hrun & _).
    rewrite Hrun. cbn. now rewrite blank_raises.
Qed.

Lemma blank_line_fails_the_call_witness :
  extract_gene_lengths file_path (one_file file_path blank_between)
  = (Raise IndexError, one_file file_path blank_between).
Proof.
  destruct (blank_line_fails_the_call
              (one_file file_path blank_between) file_path blank_between
              [">scaffold1" ++ nl; forward_gene] [reverse_gene]
              ("  " ++ nl))
    as (_ & _ & Hindex).
  - apply lookup_one_file.
  - vm_compute. reflexivity.
  - vm_compute. reflexivity.
  - apply Hindex.
    repeat (constructor; [well_formed_by_evaluation |]). constructor.
Defined.

(** * Further properties of the extractor *)

Lemma loop_body_acc (line : string) (acc : list Z) :
  loop_body line acc
  = (out ← loop_body line []; Ok (acc ++ out)%list).
Proof.
  destruct (is_header line) eqn:Hh.
  - rewrite !loop_body_header by assumption. cbn. now rewrite app_nil_r.
  - unfold loop_body. unfold is_header in Hh. rewrite Hh.
    unfold Py.getitem.
    destruct (Py.split (Py.strip line) !! 1%nat) as [f1|]; cbn; [| reflexivity].
    destruct (Py.int f1) as [start|e]; cbn; [| reflexivity].
    destruct (Py.split (Py.strip line) !! 2%nat) as [f2|]; cbn; [| reflexivity].
    destruct (Py.int f2) as [end_|e]; cbn; reflexivity.
Qed.

Lemma for_lines_acc (file : list string) (acc : list Z) :
  for_lines file acc = (out ← for_lines file []; Ok (acc ++ out)%list).
Proof.
  revert acc. induction file as [|line file IH]; intros acc; cbn.
  - now rewrite app_nil_r.
  - rewrite (loop_body_acc line acc).
    destruct (loop_body line []) as [out1|e]; cbn; [| reflexivity].
    rewrite (IH (acc ++ out1)%list), (IH out1).
    destruct (for_lines file []) as [out2|e]; cbn; [| reflexivity].
    now rewrite app_assoc.
Qed.

Lemma for_lines_ok_well_formed (file : list string) (acc out : list Z) :
  for_lines file acc = Ok out -> Forall well_formed file.
Proof.
  revert acc. induction file as [|line file IH]; intros acc; cbn.
  - constructor.
  - destruct (loop_body_outcome line acc) as [Hh | start end_ Hh Hc | e _ He _];
      cbn; [| | discriminate].
    + intros Hrun. constructor; [now left | eauto].
    + intros Hrun. constructor; [right; eauto | eauto].
Qed.

(** X1: the call returns a list exactly when every line of the file is
    a header or a data line whose fields 1 and 2 are integers. *)
Theorem returns_iff_every_line_well_formed
    (w : world) (path contents : string) :
  files w !! path = Some contents ->
  (exists gene_lengths, fst (extract_gene_lengths path w) = Ok gene_lengths)
  <-> Forall well_formed (Py.readlines contents).
Proof.
  intros Hfile. rewrite (extract_existing path contents w Hfile). cbn [fst].
  split.
  - intros [out Hrun]. now apply (for_lines_ok_well_formed _ [] out).
  - intros Hwf.
    destruct (for_lines_well_formed (Py.readlines contents) [] Hwf)
      as (out & Hrun & _).
    eauto.
Qed.

Lemma returns_iff_every_line_well_formed_witness :
  Forall well_formed (Py.readlines scenario).
Proof.
  apply (returns_iff_every_line_well_formed
           (one_file file_path scenario) file_path scenario).
  - apply lookup_one_file.
  - exists [300; 251]%Z. vm_compute. reflexivity.
Defined.

(** X2: within a data line the start is read before the end is looked
    up: a field 1 that is no integer raises ValueError also when field 2
    is missing, and IndexError for the missing field 2 is raised only
    after field 1 was read as an integer. *)
Theorem start_is_read_before_end_is_looked_up
    (line field1 : string) (gene_lengths : list Z) :
  is_header line = false ->
  fields_of line !! 1%nat = Some field1 ->
  (Py.int field1 = Raise ValueError ->
   loop_body line gene_lengths = Raise ValueError) /\
  (forall start,
      Py.int field1 = Ok start ->
      fields_of line !! 2%nat = None ->
      loop_body line gene_lengths = Raise IndexError).
Proof.
  intros Hh H1. unfold is_header in Hh. unfold fields_of in *.
  unfold loop_body, Py.getitem. rewrite Hh, H1. cbn. split.
  - now intros ->.
  - now intros start -> ->.
Qed.

Lemma start_is_read_before_end_is_looked_up_witness :
  loop_body two_fields_bad_start [] = Raise ValueError.
Proof.
  destruct (start_is_read_before_end_is_looked_up
              two_fields_bad_start "12x" []) as [Hvalue _].
  - vm_compute. reflexivity.
  - vm_compute. reflexivity.
  - apply Hvalue. vm_compute. reflexivity.
Defined.

(** X3: the call raises the exception of the first line that fails:
    when all lines before a line are well formed and that line raises
    [e], the call raises [e], whatever follows it in the file. *)
Theorem first_failing_line_decides_the_exception
    (w : world) (path contents : string)
    (before after : list string) (line : string) (e : exn) :
  files w !! path = Some contents ->
  Py.readlines contents = (before ++ line :: after)%list ->
  Forall well_formed before ->
  loop_body line [] = Raise e ->
  extract_gene_lengths path w = (Raise e, w).
Proof.
  intros Hfile Hlines Hwf Hraise.
  rewrite (extract_existing path contents w Hfile).
  rewrite Hlines, for_lines_app.
  destruct (for_lines_well_formed before [] Hwf) as (out & Hrun & _).
  rewrite Hrun. cbn. rewrite loop_body_acc, Hraise. reflexivity.
Qed.

Lemma first_failing_line_decides_the_exception_witness :
  extract_gene_lengths file_path (one_file file_path value_then_index)
  = (Raise ValueError, one_file file_path value_then_index).
Proof.
  apply (first_failing_line_decides_the_exception
           (one_file file_path value_then_index) file_path value_then_index
           [forward_gene] [short_line] ("orf00006 7 seven" ++ nl)).
  - apply lookup_one_file.
  - vm_compute. reflexivity.
  - repeat (constructor; [well_formed_by_evaluation |]). constructor.
  - vm_compute. reflexivity.
Defined.

(** ** Line endings *)

Lemma append_cons (c : ascii) (s t : string) :
  String c s ++ t = String c (s ++ t).
Proof. reflexivity. Qed.

Lemma no_break_cons (c : ascii) (s : string) :
  no_break (String c s) = true ->
  Ascii.eqb c Py.CR = false /\ Ascii.eqb c Py.LF = false /\ no_break s = true.
Proof.
  cbn [no_break]. intros [[Hcr Hlf]%andb_true_iff Hs]%andb_true_iff.
  apply negb_true_iff in Hcr. apply negb_true_iff in Hlf. auto.
Qed.

Lemma universal_newlines_no_break (line rest : string) :
  no_break line = true ->
  Py.universal_newlines (line ++ rest) = line ++ Py.universal_newlines rest.
Proof.
  induction line as [|c line IH]; [reflexivity |].
  intros (Hcr & _ & Hline)%no_break_cons.
  rewrite !append_cons. cbn [Py.universal_newlines]. rewrite Hcr.
  now rewrite IH.
Qed.

Lemma universal_newlines_lines (ending : string) (lines : list string)
    (tail : string) :
  ending = crlf \/ ending = nl ->
  Forall (fun line => no_break line = true) lines ->
  Py.universal_newlines (with_line_ends ending lines ++ tail)
  = with_line_ends nl lines ++ Py.universal_newlines tail.
Proof.
  intros Hending Hlines.
  induction Hlines as [|line lines Hline _ IH]; [reflexivity |].
  cbn [with_line_ends]. rewrite !append_assoc.
  rewrite universal_newlines_no_break by assumption. f_equal.
  destruct Hending as [-> | ->].
  - change (crlf ++ with_line_ends crlf lines ++ tail)
      with (String Py.CR (String Py.LF (with_line_ends crlf lines ++ tail))).
    cbn [Py.universal_newlines]. cbn. now rewrite IH.
  - change (nl ++ with_line_ends nl lines ++ tail)
      with (String Py.LF (with_line_ends nl lines ++ tail)).
    cbn [Py.universal_newlines]. cbn. now rewrite IH.
Qed.

Lemma iter_lines_line (line rest : string) :
  no_break line = true ->
  Py.iter_lines (line ++ nl ++ rest) = terminated line :: Py.iter_lines rest.
Proof.
  induction line as [|c line IH]; [reflexivity |].
  intros (_ & Hlf & Hline)%no_break_cons.
  rewrite !append_cons. cbn [Py.iter_lines]. rewrite Hlf.
  now rewrite IH.
Qed.

Lemma iter_lines_last (line : string) :
  no_break line = true -> line <> EmptyString ->
  Py.iter_lines line = [line].
Proof.
  induction line as [|c line IH]; [congruence |].
  intros (_ & Hlf & Hline)%no_break_cons _.
  cbn [Py.iter_lines]. rewrite Hlf.
  destruct line as [|d line]; [reflexivity |].
  now rewrite IH.
Qed.

Lemma iter_lines_lines (lines : list string) (tail : string) :
  Forall (fun line => no_break line = true) lines ->
  Py.iter_lines (with_line_ends nl lines ++ tail)
  = (map terminated lines ++ Py.iter_lines tail)%list.
Proof.
  intros Hlines.
  induction Hlines as [|line lines Hline _ IH]; [reflexivity |].
  cbn [with_line_ends map]. rewrite !append_assoc.
  rewrite iter_lines_line by assumption. now rewrite IH.
Qed.

Lemma readlines_lines (ending : string) (lines : list string) :
  ending = crlf \/ ending = nl ->
  Forall (fun line => no_break line = true) lines ->
  Py.readlines (with_line_ends ending lines)
  = map terminated lines.
Proof.
  intros Hending Hlines. unfold Py.readlines.
  rewrite <- (append_empty (with_line_ends ending lines)).
  rewrite universal_newlines_lines by assumption.
  rewrite iter_lines_lines by assumption. cbn. apply app_nil_r.
Qed.

(** X4: [strip()] before [split()] changes nothing: the fields the loop
    indexes are the fields of the line as it was read, terminator and
    surrounding whitespace included. *)
Theorem strip_before_split_changes_nothing (line : string) :
  fields_of line = Py.split line /\
  Py.split (Py.lstrip line) = Py.split line /\
  Py.split (Py.rstrip line) = Py.split line.
Proof.
  split; [apply fields_of_split |]. split; [apply split_lstrip |].
  apply split_scan_rstrip.
Qed.

Lemma split_leading_space (c : ascii) (rest : string) :
  Py.isspace c = true -> Py.split (String c rest) = Py.split rest.
Proof. intros Hc. unfold Py.split. cbn. now rewrite Hc. Qed.

(** X5: the header test looks at the line as read, the fields are taken
    after stripping: a header with whitespace in front of its '>' is not
    skipped but read as a data line, and with a title of one word it
    fails the call with IndexError. *)
Theorem indented_header_is_read_as_data
    (c : ascii) (title : string) (gene_lengths : list Z) :
  Py.isspace c = true ->
  field title ->
  is_header (String c (String header_marker title) ++ nl) = false /\
  loop_body (String c (String header_marker title) ++ nl) gene_lengths
  = Raise IndexError.
Proof.
  intros Hc [Hne Hns].
  assert (Hh : is_header (String c (String header_marker title) ++ nl) = false).
  { unfold is_header. rewrite append_cons. cbn [Py.startswith].
    destruct (Ascii.eqb_spec c header_marker) as [-> |];
      [vm_compute in Hc; discriminate | reflexivity]. }
  split; [assumption |].
  assert (Hfields : fields_of (String c (String header_marker title) ++ nl)
                    = [String header_marker title]).
  { rewrite fields_of_split, append_cons, split_leading_space by assumption.
    change (String header_marker title)
      with (join_fields [String header_marker title]).
    rewrite split_join_fields; [reflexivity | | congruence | reflexivity].
    constructor; [| constructor]. split; [congruence |].
    cbn [no_space]. now rewrite Hns. }
  unfold loop_body. unfold is_header in Hh. rewrite Hh.
  fold (fields_of (String c (String header_marker title) ++ nl)).
  now rewrite Hfields.
Qed.

Lemma indented_header_is_read_as_data_witness :
  loop_body (" >scaffold1" ++ nl) [] = Raise IndexError.
Proof.
  destruct (indented_header_is_read_as_data " "%char "scaffold1" [])
    as [_ Hraise].
  - vm_compute. reflexivity.
  - split; [discriminate | vm_compute; reflexivity].
  - exact Hraise.
Defined.

(** X6: a file with CR LF line endings gives the same outcome as the
    file with the same lines ended by LF. *)
Theorem crlf_file_reads_as_lf_file
    (w1 w2 : world) (path1 path2 : string) (lines : list string) :
  Forall (fun line => no_break line = true) lines ->
  files w1 !! path1 = Some (with_line_ends crlf lines) ->
  files w2 !! path2 = Some (with_line_ends nl lines) ->
  fst (extract_gene_lengths path1 w1) = fst (extract_gene_lengths path2 w2).
Proof.
  intros Hlines Hfile1 Hfile2.
  rewrite (extract_existing _ _ _ Hfile1), (extract_existing _ _ _ Hfile2).
  cbn [fst]. now rewrite !readlines_lines by auto.
Qed.

Lemma crlf_file_reads_as_lf_file_witness :
  fst (extract_gene_lengths file_path
         (one_file file_path (with_line_ends crlf scenario_lines)))
  = fst (extract_gene_lengths file_path
           (one_file file_path (with_line_ends nl scenario_lines))).
Proof.
  apply (crlf_file_reads_as_lf_file _ _ file_path file_path scenario_lines).
  - repeat (constructor; [vm_compute; reflexivity |]). constructor.
  - apply lookup_one_file.
  - apply lookup_one_file.
Defined.

Lemma split_scan_terminated (s word : string) :
  Py.split_scan word (s ++ nl) = Py.split_scan word s.
Proof.
  revert word. induction s as [|c s IH]; intros word; [reflexivity |].
  rewrite append_cons. cbn [Py.split_scan]. now rewrite !IH.
Qed.

Lemma loop_body_terminated (line : string) (acc : list Z) :
  line <> EmptyString ->
  loop_body (terminated line) acc = loop_body line acc.
Proof.
  intros Hne. unfold loop_body, terminated.
  fold (fields_of (line ++ nl)). fold (fields_of line).
  rewrite !fields_of_split. unfold Py.split. rewrite split_scan_terminated.
  destruct line as [|c line]; [congruence | reflexivity].
Qed.

(** X7: a missing newline at the end of the file changes nothing: the
    file whose last line is not terminated gives the same outcome as the
    file with that line terminated. *)
Theorem final_newline_is_optional
    (w1 w2 : world) (path1 path2 : string)
    (lines : list string) (last_line : string) :
  Forall (fun line => no_break line = true) lines ->
  no_break last_line = true ->
  last_line <> EmptyString ->
  files w1 !! path1 = Some (with_line_ends nl lines ++ last_line) ->
  files w2 !! path2 = Some (with_line_ends nl (lines ++ [last_line])) ->
  fst (extract_gene_lengths path1 w1) = fst (extract_gene_lengths path2 w2).
Proof.
  intros Hlines Hlast Hne Hfile1 Hfile2.
  rewrite (extract_existing _ _ _ Hfile1), (extract_existing _ _ _ Hfile2).
  cbn [fst]. rewrite readlines_lines; [| auto |].
  2:{ apply Forall_app. split; [assumption | now constructor]. }
  unfold Py.readlines.
  rewrite universal_newlines_lines by auto.
  rewrite <- (append_empty last_line) at 1.
  rewrite universal_newlines_no_break by assumption.
  change (Py.universal_newlines EmptyString) with EmptyString.
  rewrite append_empty.
  rewrite iter_lines_lines by assumption.
  rewrite iter_lines_last by assumption.
  rewrite map_app, !for_lines_app.
  destruct (for_lines (map terminated lines) []) as [collected|e]; cbn;
    [| reflexivity].
  now rewrite loop_body_terminated.
Qed.

Lemma final_newline_is_optional_witness :
  fst (extract_gene_lengths file_path
         (one_file file_path
            (with_line_ends nl [">scaffold1"; "CDS 1 300 + "]
             ++ "CDS 500 250 -")))
  = fst (extract_gene_lengths file_path
           (one_file file_path (with_line_ends nl scenario_lines))).
Proof.
  apply (final_newline_is_optional _ _ file_path file_path
           [">scaffold1"; "CDS 1 300 + "] "CDS 500 250 -").
  - repeat (constructor; [vm_compute; reflexivity |]). constructor.
  - vm_compute. reflexivity.
  - discriminate.
  - apply lookup_one_file.
  - apply lookup_one_file.
Defined.

(** X9: when every line of [run_tres.predict] is well formed, the frame
    handed to the box plot holds only lengths between 1 and 100000, and
    they are extracted lengths in their original order. *)
Theorem plotted_lengths_are_between_1_and_100000
    (w : world) (contents : string) :
  files w !! file_path = Some contents ->
  Forall well_formed (Py.readlines contents) ->
  exists extracted plotted,
    extract_gene_lengths file_path w = (Ok extracted, w) /\
    gene_length_section w = (Ok plotted, w) /\
    sublist plotted extracted /\
    Forall (fun v => (1 <= v <= 100000)%Z) plotted.
Proof.
  intros Hfile Hwf.
  destruct (for_lines_well_formed (Py.readlines contents) [] Hwf)
    as (out & Hrun & _).
  assert (Hextract : extract_gene_lengths file_path w = (Ok out, w)).
  { rewrite (extract_existing _ _ _ Hfile). now rewrite Hrun. }
  exists out, (df out). split; [assumption |].
  split; [unfold gene_length_section; now rewrite Hextract |].
  split; [apply df_sublist |].
  apply List.Forall_forall. intros v [Hin Hle]%df_In.
  split; [| assumption].
  pose proof (for_lines_positive _ _ _ Hrun (List.Forall_nil _)) as Hpos.
  rewrite List.Forall_forall in Hpos. now apply Hpos.
Qed.

Lemma plotted_lengths_are_between_1_and_100000_witness :
  exists extracted plotted,
    extract_gene_lengths file_path (one_file file_path long_gene_file)
      = (Ok extracted, one_file file_path long_gene_file) /\
    gene_length_section (one_file file_path long_gene_file)
      = (Ok plotted, one_file file_path long_gene_file) /\
    sublist plotted extracted /\
    Forall (fun v => (1 <= v <= 100000)%Z) plotted.
Proof.
  apply (plotted_lengths_are_between_1_and_100000
           (one_file file_path long_gene_file) long_gene_file).
  - apply lookup_one_file.
  - lines_by_evaluation long_gene_file.
    repeat (constructor; [well_formed_by_evaluation |]). constructor.
Defined.

(** ** Files put one after the other *)

Lemma universal_newlines_cons (c : ascii) (rest : string) :
  Py.universal_newlines (String c rest)
  = if Ascii.eqb c Py.CR then
      match rest with
      | String c' rest' =>
          if Ascii.eqb c' Py.LF
          then String Py.LF (Py.universal_newlines rest')
          else String Py.LF (Py.universal_newlines rest)
      | EmptyString => String Py.LF EmptyString
      end
    else String c (Py.universal_newlines rest).
Proof. reflexivity. Qed.

Lemma universal_newlines_terminated_app (first rest : string) :
  (Py.universal_newlines (first ++ nl ++ rest)
   = Py.universal_newlines (first ++ nl) ++ Py.universal_newlines rest) /\
  (forall c,
      Py.universal_newlines (String c first ++ nl ++ rest)
      = Py.universal_newlines (String c first ++ nl)
        ++ Py.universal_newlines rest).
Proof.
  induction first as [|d first [IH1 IH2]].
  - split; [reflexivity |]. intros c.
    change (String c "" ++ nl ++ rest) with (String c (String Py.LF rest)).
    change (String c "" ++ nl) with (String c (String Py.LF "")).
    rewrite !(universal_newlines_cons c).
    destruct (Ascii.eqb c Py.CR); reflexivity.
  - split; [apply IH2 |]. intros c.
    rewrite !(append_cons c), !(universal_newlines_cons c).
    destruct (Ascii.eqb c Py.CR).
    + rewrite !(append_cons d). cbv iota.
      destruct (Ascii.eqb d Py.LF).
      * rewrite IH1. reflexivity.
      * rewrite <- !(append_cons d), IH2. reflexivity.
    + rewrite IH2. reflexivity.
Qed.

Lemma universal_newlines_ends_with_newline (first : string) :
  (exists text, Py.universal_newlines (first ++ nl) = text ++ nl) /\
  (forall c, exists text,
        Py.universal_newlines (String c first ++ nl) = text ++ nl).
Proof.
  induction first as [|d first [IH1 IH2]].
  - split; [now exists EmptyString |]. intros c.
    change (String c "" ++ nl) with (String c (String Py.LF "")).
    rewrite (universal_newlines_cons c).
    destruct (Ascii.eqb c Py.CR).
    + now exists EmptyString.
    + now exists (String c EmptyString).
  - split; [apply IH2 |]. intros c.
    rewrite (append_cons c), (universal_newlines_cons c).
    destruct (Ascii.eqb c Py.CR).
    + rewrite (append_cons d). cbv iota.
      destruct (Ascii.eqb d Py.LF).
      * destruct IH1 as [text ->]. now exists (String Py.LF text).
      * rewrite <- (append_cons d). destruct (IH2 d) as [text ->].
        now exists (String Py.LF text).
    + destruct (IH2 d) as [text ->]. now exists (String c text).
Qed.

Lemma iter_lines_terminated_app (text rest : string) :
  Py.iter_lines ((text ++ nl) ++ rest)
  = (Py.iter_lines (text ++ nl) ++ Py.iter_lines rest)%list.
Proof.
  induction text as [|c text IH]; [reflexivity |].
  rewrite !append_cons. cbn [Py.iter_lines].
  destruct (Ascii.eqb c Py.LF).
  - now rewrite IH.
  - rewrite IH.
    destruct (Py.iter_lines (text ++ nl)) as [|line lines] eqn:Hlines;
      [| reflexivity].
    exfalso. destruct text as [|d text]; [discriminate |].
    rewrite append_cons in Hlines. cbn [Py.iter_lines] in Hlines.
    destruct (Ascii.eqb d Py.LF); [discriminate |].
    destruct (Py.iter_lines (text ++ nl)); discriminate.
Qed.

Lemma readlines_terminated_app (first rest : string) :
  Py.readlines ((first ++ nl) ++ rest)
  = (Py.readlines (first ++ nl) ++ Py.readlines rest)%list.
Proof.
  unfold Py.readlines. rewrite append_assoc.
  rewrite (proj1 (universal_newlines_terminated_app first rest)).
  destruct (proj1 (universal_newlines_ends_with_newline first)) as [text ->].
  apply iter_lines_terminated_app.
Qed.

(** X8: reading one file after another: when the first file ends with
    a newline, the outcome for the two files put together is the outcome
    for the first followed by the outcome for the second, the lengths of
    the first file before those of the second, or the exception that
    comes first. *)
Theorem files_put_together_give_lengths_put_together
    (w : world) (path1 path2 path : string) (first second : string) :
  files w !! path1 = Some (first ++ nl) ->
  files w !! path2 = Some second ->
  files w !! path = Some ((first ++ nl) ++ second) ->
  fst (extract_gene_lengths path w)
  = (lengths1 ← fst (extract_gene_lengths path1 w);
     lengths2 ← fst (extract_gene_lengths path2 w);
     Ok (lengths1 ++ lengths2)%list).
Proof.
  intros Hfile1 Hfile2 Hfile.
  rewrite (extract_existing _ _ _ Hfile1), (extract_existing _ _ _ Hfile2),
    (extract_existing _ _ _ Hfile).
  cbn [fst]. rewrite readlines_terminated_app, for_lines_app.
  destruct (for_lines (Py.readlines (first ++ nl)) []) as [lengths1|e]; cbn;
    [| reflexivity].
  apply for_lines_acc.
Qed.

Lemma files_put_together_give_lengths_put_together_witness :
  fst (extract_gene_lengths "all.predict" three_predictions)
  = Ok [300; 251; 100; 100]%Z.
Proof.
  rewrite (files_put_together_give_lengths_put_together
             three_predictions "a.predict" "b.predict" "all.predict"
             (">scaffold1" ++ nl ++ "CDS 1 300 + " ++ nl ++ "CDS 500 250 -")
             both_strands).
  - vm_compute. reflexivity.
  - vm_compute. reflexivity.
  - vm_compute. reflexivity.
  - vm_compute. reflexivity.
Defined.

(** * Properties of the report sections *)

(** ** File names *)

Lemma split_sep_not_nil (sep : ascii) (s : string) :
  PyStr.split_sep sep s <> [].
Proof.
  destruct s as [|c s]; cbn; [discriminate |].
  destruct (Ascii.eqb c sep); [discriminate |].
  destruct (PyStr.split_sep sep s); discriminate.
Qed.

Lemma split_sep_app (sep : ascii) (a b : string) :
  PyStr.split_sep sep (a ++ String sep b)
  = (PyStr.split_sep sep a ++ PyStr.split_sep sep b)%list.
Proof.
  induction a as [|c a IH].
  - change ("" ++ String sep b) with (String sep b).
    cbn [PyStr.split_sep]. now rewrite Ascii.eqb_refl.
  - rewrite append_cons. cbn [PyStr.split_sep].
    destruct (Ascii.eqb c sep); [now rewrite IH |].
    rewrite IH. pose proof (split_sep_not_nil sep a) as Hne.
    destruct (PyStr.split_sep sep a); [congruence | reflexivity].
Qed.

Lemma split_sep_no_slash (name : string) :
  no_slash name = true -> PyStr.split_sep slash name = [name].
Proof.
  induction name as [|c name IH]; [reflexivity |].
  cbn [no_slash]. intros [Hc Hname]%andb_true_iff.
  apply negb_true_iff in Hc.
  cbn [PyStr.split_sep]. rewrite Hc. now rewrite IH.
Qed.

Lemma file_name_plain (name : string) :
  no_slash name = true -> file_name name = Ok name.
Proof.
  intros Hname. unfold file_name, PyStr.getitem_last.
  now rewrite split_sep_no_slash.
Qed.

Lemma file_name_in_directory (dir name : string) :
  no_slash name = true -> file_name (dir ++ "/" ++ name) = Ok name.
Proof.
  intros Hname. unfold file_name, PyStr.getitem_last.
  change (dir ++ "/" ++ name) with (dir ++ String slash name).
  rewrite split_sep_app, (split_sep_no_slash name) by assumption.
  now rewrite last_snoc.
Qed.

Lemma path_decomposes (file : string) :
  exists dir name,
    file = dir ++ name /\ no_slash name = true /\ directory_part dir.
Proof.
  induction file as [|c file (dir & name & -> & Hname & Hdir)].
  - exists EmptyString, EmptyString. repeat split. now left.
  - destruct Hdir as [-> | [d ->]].
    + destruct (Ascii.eqb c slash) eqn:Hc.
      * apply Ascii.eqb_eq in Hc as ->.
        exists "/", name. repeat split; [assumption |].
        right. now exists EmptyString.
      * exists EmptyString, (String c name). repeat split; [| now left].
        cbn [no_slash]. now rewrite Hc.
    + exists (String c d ++ "/"), name. repeat split; [assumption |].
      right. now exists (String c d).
Qed.

(** X10: [file.split('/')[-1]] never raises: for every path it returns
    the part after the last '/', which contains no '/', and the path is
    that name behind a directory part that is empty or ends with '/'. *)
Theorem file_name_is_the_part_after_the_last_slash (file : string) :
  exists dir name,
    file_name file = Ok name /\
    file = dir ++ name /\
    no_slash name = true /\
    directory_part dir.
Proof.
  destruct (path_decomposes file) as (dir & name & -> & Hname & Hdir).
  exists dir, name. split; [| auto].
  destruct Hdir as [-> | [d ->]].
  - now apply file_name_plain.
  - rewrite append_assoc. now apply file_name_in_directory.
Qed.

(** X11: the name of a path built from a directory and a name without
    '/' is that name, however deep the directory is. *)
Theorem file_name_of_a_path_in_a_directory (dir name : string) :
  no_slash name = true ->
  file_name (dir ++ "/" ++ name) = Ok name /\
  file_name name = Ok name.
Proof.
  intros Hname. split.
  - now apply file_name_in_directory.
  - now apply file_name_plain.
Qed.

Lemma file_name_of_a_path_in_a_directory_witness :
  file_name "fastqc_before/run1/reads_1_fastqc.html"
  = Ok "reads_1_fastqc.html".
Proof.
  apply (file_name_of_a_path_in_a_directory
           "fastqc_before/run1" "reads_1_fastqc.html").
  vm_compute. reflexivity.
Defined.

Lemma file_name_is_known (file : string) :
  exists name, file_name file = Ok name.
Proof.
  destruct (path_decomposes file) as (dir & name & -> & Hname & Hdir).
  exists name. destruct Hdir as [-> | [d ->]].
  - now apply file_name_plain.
  - rewrite append_assoc. now apply file_name_in_directory.
Qed.

Lemma report_file_names_ok (report_files : list string) :
  exists names,
    report_file_names report_files = Ok names /\
    Forall2 (fun file name => file_name file = Ok name) report_files names.
Proof.
  induction report_files as [|file rest (names & Hnames & Hall)].
  - exists []. split; [reflexivity | constructor].
  - destruct (file_name_is_known file) as [name Hname].
    exists (name :: names). split.
    + cbn [report_file_names]. rewrite Hname. cbn. rewrite Hnames.
      reflexivity.
    + now constructor.
Qed.

(** ** The substring test *)

Lemma prefix_app (needle post : string) :
  String.prefix needle (needle ++ post) = true.
Proof.
  induction needle as [|c needle IH]; [now destruct post |].
  rewrite append_cons. cbn [String.prefix].
  destruct (ascii_dec c c); [assumption | congruence].
Qed.

Lemma prefix_elim (needle hay : string) :
  String.prefix needle hay = true -> exists post, hay = needle ++ post.
Proof.
  revert hay. induction needle as [|c needle IH]; intros hay.
  - intros _. now exists hay.
  - destruct hay as [|d hay]; cbn [String.prefix]; [discriminate |].
    destruct (ascii_dec c d) as [<- |]; [| discriminate].
    intros [post ->]%IH. now exists post.
Qed.

Lemma contains_app (pre needle post : string) :
  PyStr.contains needle (pre ++ needle ++ post) = true.
Proof.
  induction pre as [|c pre IH].
  - change ("" ++ needle ++ post) with (needle ++ post).
    destruct (needle ++ post) eqn:Hhay; cbn [PyStr.contains];
      rewrite <- Hhay, prefix_app; reflexivity.
  - rewrite append_cons. cbn [PyStr.contains]. rewrite IH.
    apply orb_true_r.
Qed.

Lemma contains_elim (needle hay : string) :
  PyStr.contains needle hay = true ->
  exists pre post, hay = pre ++ needle ++ post.
Proof.
  induction hay as [|c hay IH]; cbn [PyStr.contains].
  - rewrite orb_false_r. intros [post ->]%prefix_elim.
    now exists EmptyString, post.
  - intros [[post ->]%prefix_elim | (pre & post & ->)%IH]%orb_true_iff.
    + now exists EmptyString, post.
    + now exists (String c pre), post.
Qed.

(** X12: [needle in hay] is true exactly when [hay] is some text, then
    [needle], then some text; in particular the empty string is in every
    string. *)
Theorem contains_iff_occurs_inside (needle hay : string) :
  PyStr.contains needle hay = true
  <-> exists pre post, hay = pre ++ needle ++ post.
Proof.
  split; [apply contains_elim |].
  intros (pre & post & ->). apply contains_app.
Qed.

Lemma file_name_is_the_name (file : string) :
  exists dir name,
    file_name file = Ok name /\ file = dir ++ name /\ no_slash name = true.
Proof.
  destruct (path_decomposes file) as (dir & name & -> & Hname & Hdir).
  exists dir, name. split; [| auto].
  destruct Hdir as [-> | [d ->]].
  - now apply file_name_plain.
  - rewrite append_assoc. now apply file_name_in_directory.
Qed.

Lemma contains_file_name (file name : string) :
  file_name file = Ok name -> PyStr.contains name file = true.
Proof.
  intros Hname.
  destruct (file_name_is_the_name file) as (dir & name' & Hname' & -> & _).
  rewrite Hname' in Hname. injection Hname as <-.
  rewrite <- (append_empty name') at 2. apply contains_app.
Qed.

(** ** The report that is selected *)

Lemma selected_first_match (name : string)
    (before after : list string) (file : string) :
  Forall (fun earlier => PyStr.contains name earlier = false) before ->
  PyStr.contains name file = true ->
  selected_report_path (Some name) (before ++ file :: after)
  = Returns file.
Proof.
  intros Hbefore Hfile.
  induction Hbefore as [|earlier before Hearlier _ IH]; cbn.
  - now rewrite Hfile.
  - now rewrite Hearlier.
Qed.

Lemma selected_some_match (name : string) (report_files : list string) :
  (exists file, In file report_files /\ PyStr.contains name file = true) ->
  exists before path after,
    report_files = (before ++ path :: after)%list /\
    Forall (fun earlier => PyStr.contains name earlier = false) before /\
    PyStr.contains name path = true.
Proof.
  induction report_files as [|first rest IH].
  - intros (file & [] & _).
  - intros (file & Hin & Hfile).
    destruct (PyStr.contains name first) eqn:Hfirst.
    + exists [], first, rest. repeat split; [constructor | assumption].
    + destruct Hin as [-> | Hin]; [congruence |].
      destruct IH as (before & path & after & -> & Hbefore & Hpath);
        [eauto |].
      exists (first :: before), path, after.
      repeat split; [now constructor | assumption].
Qed.

Lemma sorted_Permutation (matches : list string) :
  PyStr.sorted matches ≡ₚ matches.
Proof. apply merge_sort_Permutation. Qed.

Lemma sorted_In (matches : list string) (file : string) :
  In file (PyStr.sorted matches) <-> In file matches.
Proof.
  rewrite <- !list_elem_of_In. now rewrite sorted_Permutation.
Qed.

Lemma sorted_nil_iff (matches : list string) :
  PyStr.sorted matches = [] <-> matches = [].
Proof.
  split.
  - intros Hnil. apply Permutation_nil_r. rewrite <- Hnil.
    symmetry. apply sorted_Permutation.
  - now intros ->.
Qed.

Lemma read_report_existing (path contents : string) (w : world) :
  files w !! path = Some contents ->
  read_report path w = (Ok (Py.universal_newlines contents), w).
Proof.
  intros Hfile. unfold read_report, with_open, open. rewrite Hfile.
  cbn. rewrite world_eta.
  unfold PyStr.read, Py.readlines. cbn. now rewrite iter_lines_unlines.
Qed.

Lemma read_report_unreadable (path : string) (w : world) :
  files w !! path = None ->
  read_report path w = (Raise (reading_raises w path), w).
Proof.
  intros Hfile. unfold read_report, with_open, open, reading_raises.
  rewrite Hfile. destruct (has_nul path); [reflexivity |].
  destruct (obstacles w path) as [[e | decoded]|]; try reflexivity.
  cbn. now rewrite world_eta.
Qed.

(** X13: the path looked up for the selected name is the first path of
    the list, in its sorted order, that contains the name anywhere in
    it: a path that merely contains the name is shown in place of a
    later path that bears it. *)
Theorem first_path_containing_the_name_is_selected
    (name : string) (before after : list string) (file : string) :
  Forall (fun earlier => PyStr.contains name earlier = false) before ->
  PyStr.contains name file = true ->
  selected_report_path (Some name) (before ++ file :: after)
  = Returns file.
Proof. apply selected_first_match. Qed.

(** The second option of the widget is "a.html", but what is shown is
    the report "Aa.html", whose path contains that name. *)
Lemma first_path_containing_the_name_is_selected_witness :
  report_file_names (PyStr.sorted overlapping_reports)
    = Ok ["Aa.html"; "a.html"] /\
  selected_report_path (Some "a.html") (PyStr.sorted overlapping_reports)
    = Returns "fastqc_before/Aa.html" /\
  fst (fastqc_section overlapping_reports (option_at 1) reports_world)
    = Returns (Html "<html>first</html>").
Proof.
  split; [vm_compute; reflexivity |].
  split; [| vm_compute; reflexivity].
  change (PyStr.sorted overlapping_reports)
    with ([] ++ "fastqc_before/Aa.html" :: ["fastqc_before/a.html"])%list.
  apply (first_path_containing_the_name_is_selected
           "a.html" [] ["fastqc_before/a.html"] "fastqc_before/Aa.html").
  - constructor.
  - vm_compute. reflexivity.
Defined.

Lemma option_in_names (report_files names : list string) (name : string) :
  Forall2 (fun file name => file_name file = Ok name) report_files names ->
  In name names ->
  exists file, In file report_files /\ PyStr.contains name file = true.
Proof.
  intros Hall. induction Hall as [|file n files ns Hn _ IH]; [intros [] |].
  intros [<- | Hin].
  - exists file. split; [now left | now apply contains_file_name].
  - destruct (IH Hin) as (f & Hf & Hc). exists f. split; [now right | auto].
Qed.

(** X14: whatever the directory holds and whichever option the widget
    answers with, looking up the selected report never raises; with no
    report the path is the empty string and the test [None in file] is
    never evaluated, otherwise the path is one of the reports found and
    contains the selected name. *)
Theorem looking_up_the_selected_report_never_raises
    (matches : list string) (selectbox : list string -> option string) :
  selectbox_answers selectbox ->
  exists names path,
    report_file_names (PyStr.sorted matches) = Ok names /\
    length names = length matches /\
    selected_report_path (selectbox names) (PyStr.sorted matches)
      = Returns path /\
    ((matches = [] /\ path = EmptyString) \/
     (In path matches /\
      exists name, selectbox names = Some name /\
                   PyStr.contains name path = true)).
Proof.
  intros Hbox.
  destruct (report_file_names_ok (PyStr.sorted matches))
    as (names & Hnames & Hall).
  assert (Hlen : length names = length matches).
  { rewrite <- (Forall2_length _ _ _ Hall).
    apply Permutation_length, sorted_Permutation. }
  specialize (Hbox names).
  destruct names as [|n names].
  - assert (matches = []) as ->
        by (destruct matches; [reflexivity | discriminate]).
    exists [], EmptyString. repeat split; try assumption. now left.
  - destruct Hbox as (name & Hsel & Hin).
    destruct (option_in_names _ _ name Hall Hin) as (file & Hfile & Hc).
    destruct (selected_some_match name (PyStr.sorted matches))
      as (before & path & after & Hsplit & Hbefore & Hpath); [eauto |].
    exists (n :: names), path. split; [assumption |]. split; [assumption |].
    split.
    + rewrite Hsel, Hsplit. now apply selected_first_match.
    + right. split; [| eauto].
      apply sorted_In. rewrite Hsplit. apply in_or_app. right. now left.
Qed.

Lemma first_option_answers : selectbox_answers first_option.
Proof.
  intros [|option options]; [reflexivity |].
  exists option. split; [reflexivity | now left].
Qed.

Lemma option_at_answers (index : nat) : selectbox_answers (option_at index).
Proof.
  intros [|option options]; [now destruct index |].
  unfold option_at.
  destruct ((option :: options) !! index) as [chosen|] eqn:Hchosen.
  - exists chosen. split; [reflexivity |].
    apply list_elem_of_In. eapply list_elem_of_lookup_2. eassumption.
  - exists option. split; [reflexivity | now left].
Qed.

Lemma looking_up_the_selected_report_never_raises_witness :
  exists names path,
    report_file_names (PyStr.sorted overlapping_reports) = Ok names /\
    length names = length overlapping_reports /\
    selected_report_path (option_at 1 names)
      (PyStr.sorted overlapping_reports) = Returns path /\
    ((overlapping_reports = [] /\ path = EmptyString) \/
     (In path overlapping_reports /\
      exists name, option_at 1 names = Some name /\
                   PyStr.contains name path = true)).
Proof.
  apply (looking_up_the_selected_report_never_raises
           overlapping_reports (option_at 1)).
  apply option_at_answers.
Defined.

(** ** The sections *)

Lemma fastqc_section_run
    (matches names : list string) (selectbox : list string -> option string)
    (path : string) (w : world) :
  report_file_names (PyStr.sorted matches) = Ok names ->
  selected_report_path (selectbox names) (PyStr.sorted matches)
    = Returns path ->
  PyStr.truthy path = true ->
  fastqc_section matches selectbox w
  = match read_report path w with
    | (Ok report_content, w') => (Returns (Html report_content), w')
    | (Raise e, w') => (Raises (Uncaught e), w')
    end.
Proof.
  intros Hnames Hpath Htruthy. unfold fastqc_section.
  now rewrite Hnames, Hpath, Htruthy.
Qed.

Lemma looking_up_the_selected_report
    (matches : list string) (selectbox : list string -> option string) :
  selectbox_answers selectbox ->
  exists names path,
    report_file_names (PyStr.sorted matches) = Ok names /\
    selected_report_path (selectbox names) (PyStr.sorted matches)
      = Returns path /\
    ((matches = [] /\ path = EmptyString) \/
     (In path matches /\
      exists name, selectbox names = Some name /\
                   PyStr.contains name path = true)).
Proof.
  intros Hbox.
  destruct (report_file_names_ok (PyStr.sorted matches))
    as (names & Hnames & Hall).
  assert (Hlen : length names = length matches).
  { rewrite <- (Forall2_length _ _ _ Hall).
    apply Permutation_length, sorted_Permutation. }
  specialize (Hbox names).
  destruct names as [|n names].
  - assert (matches = []) as ->
        by (destruct matches; [reflexivity | discriminate]).
    exists [], EmptyString. repeat split; try assumption. now left.
  - destruct Hbox as (name & Hsel & Hin).
    destruct (option_in_names _ _ name Hall Hin) as (file & Hfile & Hc).
    destruct (selected_some_match name (PyStr.sorted matches))
      as (before & path & after & Hsplit & Hbefore & Hpath); [eauto |].
    exists (n :: names), path. split; [assumption |]. split.
    + rewrite Hsel, Hsplit. now apply selected_first_match.
    + right. split; [| eauto].
      apply sorted_In. rewrite Hsplit. apply in_or_app. right. now left.
Qed.

(** X15: a FastQC section over a directory that holds reports shows one
    of them: it hands the page the text of one of the matched files,
    read with universal newlines, raises nothing and leaves no file
    open. *)
Theorem fastqc_section_shows_one_of_the_reports
    (matches : list string) (selectbox : list string -> option string)
    (w : world) :
  selectbox_answers selectbox ->
  matches <> [] ->
  Forall (fun file => PyStr.truthy file = true) matches ->
  Forall (fun file => is_Some (files w !! file)) matches ->
  exists path contents,
    In path matches /\
    files w !! path = Some contents /\
    fastqc_section matches selectbox w
    = (Returns (Html (Py.universal_newlines contents)), w).
Proof.
  intros Hbox Hne Htruthy Hexist.
  destruct (looking_up_the_selected_report matches selectbox Hbox)
    as (names & path & Hnames & Hpath & [[-> _] | [Hin _]]); [congruence |].
  rewrite List.Forall_forall in Htruthy, Hexist.
  destruct (Hexist path Hin) as [contents Hfile].
  exists path, contents. split; [assumption |]. split; [assumption |].
  rewrite (fastqc_section_run matches names selectbox path w) by auto.
  now rewrite (read_report_existing path contents w Hfile).
Qed.

Lemma fastqc_section_shows_one_of_the_reports_witness :
  exists path contents,
    In path overlapping_reports /\
    files reports_world !! path = Some contents /\
    fastqc_section overlapping_reports (option_at 1) reports_world
    = (Returns (Html (Py.universal_newlines contents)), reports_world).
Proof.
  apply (fastqc_section_shows_one_of_the_reports
           overlapping_reports (option_at 1) reports_world).
  - apply option_at_answers.
  - discriminate.
  - repeat (constructor; [vm_compute; reflexivity |]). constructor.
  - repeat (constructor; [vm_compute; eexists; reflexivity |]). constructor.
Defined.

(** X16: a FastQC section shows nothing exactly when the directory
    holds no report: then nothing is opened and [None in file] is never
    evaluated; and under the widget's contract the section never raises
    TypeError. *)
Theorem fastqc_section_shows_nothing_iff_no_reports
    (matches : list string) (selectbox : list string -> option string)
    (w : world) :
  selectbox_answers selectbox ->
  Forall (fun file => PyStr.truthy file = true) matches ->
  (fastqc_section matches selectbox w = (Returns Nothing, w)
   <-> matches = []) /\
  fst (fastqc_section matches selectbox w) <> Raises TypeError.
Proof.
  intros Hbox Htruthy.
  destruct (looking_up_the_selected_report matches selectbox Hbox)
    as (names & path & Hnames & Hpath & [[-> _] | [Hin _]]).
  - split; [split; reflexivity | discriminate].
  - rewrite List.Forall_forall in Htruthy.
    rewrite (fastqc_section_run matches names selectbox path w) by auto.
    destruct (read_report path w) as [[report_content|e] w']; cbn.
    + split; [| discriminate].
      split; [discriminate | intros ->; destruct Hin].
    + split; [| discriminate].
      split; [discriminate | intros ->; destruct Hin].
Qed.

Lemma fastqc_section_shows_nothing_iff_no_reports_witness :
  fastqc_section [] first_option reports_world
  = (Returns Nothing, reports_world).
Proof.
  destruct (fastqc_section_shows_nothing_iff_no_reports
              [] first_option reports_world) as [[_ Hnothing] _].
  - apply first_option_answers.
  - constructor.
  - now apply Hnothing.
Defined.

Lemma sorted_head_least (matches : list string) (first : string)
    (rest : list string) :
  PyStr.sorted matches = first :: rest ->
  forall other, In other matches -> String.le first other.
Proof.
  intros Hsorted other Hin.
  pose proof (StronglySorted_merge_sort String.le matches) as Hstrong.
  fold (PyStr.sorted matches) in Hstrong. rewrite Hsorted in Hstrong.
  apply sorted_In in Hin. rewrite Hsorted in Hin.
  destruct Hin as [<- | Hin]; [reflexivity |].
  apply StronglySorted_inv in Hstrong as [_ Hall].
  rewrite List.Forall_forall in Hall. now apply Hall.
Qed.

(** X17: as first shown, with the widget on its first option, a FastQC
    section shows the report whose path is the least of those found, in
    the order of [sorted]; for the first option the report shown is
    always the one that bears the selected name. *)
Theorem first_option_shows_the_least_path
    (matches : list string) (w : world) :
  matches <> [] ->
  Forall (fun file => PyStr.truthy file = true) matches ->
  Forall (fun file => is_Some (files w !! file)) matches ->
  exists path name contents,
    In path matches /\
    (forall other, In other matches -> String.le path other) /\
    file_name path = Ok name /\
    (exists names, report_file_names (PyStr.sorted matches) = Ok names /\
                   first_option names = Some name) /\
    files w !! path = Some contents /\
    fastqc_section matches first_option w
    = (Returns (Html (Py.universal_newlines contents)), w).
Proof.
  intros Hne Htruthy Hexist.
  destruct (PyStr.sorted matches) as [|first rest] eqn:Hsorted.
  { apply (proj1 (sorted_nil_iff matches)) in Hsorted. congruence. }
  assert (Hin : In first matches).
  { apply sorted_In. rewrite Hsorted. now left. }
  destruct (report_file_names_ok (first :: rest)) as (names & Hnames & Hall).
  inversion Hall as [|? name ? names' Hname Hrest]; subst.
  rewrite List.Forall_forall in Htruthy, Hexist.
  destruct (Hexist first Hin) as [contents Hfile].
  exists first, name, contents.
  split; [assumption |].
  split; [now apply (sorted_head_least matches first rest) |].
  split; [assumption |].
  split; [exists (name :: names'); now split |].
  split; [assumption |].
  rewrite (fastqc_section_run matches (name :: names') first_option first w).
  - now rewrite (read_report_existing first contents w Hfile).
  - now rewrite Hsorted.
  - rewrite Hsorted. cbn. now rewrite (contains_file_name first name).
  - now apply Htruthy.
Qed.

Lemma first_option_shows_the_least_path_witness :
  exists path name contents,
    In path overlapping_reports /\
    (forall other, In other overlapping_reports -> String.le path other) /\
    file_name path = Ok name /\
    (exists names,
        report_file_names (PyStr.sorted overlapping_reports) = Ok names /\
        first_option names = Some name) /\
    files reports_world !! path = Some contents /\
    fastqc_section overlapping_reports first_option reports_world
    = (Returns (Html (Py.universal_newlines contents)), reports_world).
Proof.
  apply (first_option_shows_the_least_path overlapping_reports reports_world).
  - discriminate.
  - repeat (constructor; [vm_compute; reflexivity |]). constructor.
  - repeat (constructor; [vm_compute; eexists; reflexivity |]). constructor.
Defined.



Lemma report_path_has_no_nul : has_nul report_path = false.
Proof. reflexivity. Qed.

Lemma quast_section_unreadable (w : world) :
  files w !! report_path = None ->
  quast_section w
  = match reading_raises w report_path with
    | FileNotFoundError =>
        (Ok (ErrorMessage "The file 'report.html' was not found."), w)
    | e => (Raise e, w)
    end.
Proof.
  intros Hfile. unfold quast_section.
  rewrite (read_report_unreadable _ _ Hfile).
  now destruct (reading_raises w report_path).
Qed.

Lemma quast_section_world (w : world) : snd (quast_section w) = w.
Proof.
  destruct (files w !! report_path) as [contents|] eqn:Hfile.
  - unfold quast_section. now rewrite (read_report_existing _ _ _ Hfile).
  - rewrite (quast_section_unreadable w Hfile).
    now destruct (reading_raises w report_path).
Qed.

(** X19: the Quast section catches FileNotFoundError and nothing else,
    and leaves no file open: a readable [report.html] is shown inside
    the styled page; where nothing stands at the path, or an entry that
    leads nowhere, the error message is shown; any other refusal of the
    system and bytes that do not decode raise out of the section. *)
Theorem quast_section_catches_only_file_not_found (w : world) :
  snd (quast_section w) = w /\
  (forall contents,
      files w !! report_path = Some contents ->
      fst (quast_section w)
      = Ok (Html (styled_report_content
                    (Py.universal_newlines contents)))) /\
  (nothing_at w report_path ->
   fst (quast_section w)
   = Ok (ErrorMessage "The file 'report.html' was not found.")) /\
  (forall e,
      files w !! report_path = None ->
      obstacles w report_path = Some (Refuses e) ->
      fst (quast_section w)
      = match e with
        | ENOENT =>
            Ok (ErrorMessage "The file 'report.html' was not found.")
        | _ => Raise (os_exn e)
        end) /\
  (forall decoded,
      files w !! report_path = None ->
      obstacles w report_path = Some (Undecodable decoded) ->
      fst (quast_section w) = Raise UnicodeDecodeError).
Proof.
  split; [apply quast_section_world |]. split.
  { intros contents Hfile. unfold quast_section.
    now rewrite (read_report_existing _ _ _ Hfile). }
  split.
  { intros (Hfile & Hobstacle & _).
    rewrite (quast_section_unreadable w Hfile).
    unfold reading_raises. rewrite report_path_has_no_nul, Hobstacle.
    reflexivity. }
  split.
  - intros e Hfile Hobstacle.
    rewrite (quast_section_unreadable w Hfile).
    unfold reading_raises. rewrite report_path_has_no_nul, Hobstacle.
    now destruct e.
  - intros decoded Hfile Hobstacle.
    rewrite (quast_section_unreadable w Hfile).
    unfold reading_raises. rewrite report_path_has_no_nul, Hobstacle.
    reflexivity.
Qed.

Lemma quast_section_shown (w : world) :
  is_Some (files w !! report_path) \/ nothing_at w report_path ->
  exists shown, quast_section w = (Ok shown, w).
Proof.
  intros [[contents Hfile] | (Hfile & Hobstacle & _)].
  - unfold quast_section. rewrite (read_report_existing _ _ _ Hfile). eauto.
  - rewrite (quast_section_unreadable w Hfile).
    unfold reading_raises. rewrite report_path_has_no_nul, Hobstacle. eauto.
Qed.

Lemma extract_world (path : string) (w : world) :
  snd (extract_gene_lengths path w) = w.
Proof.
  destruct (files w !! path) as [contents|] eqn:Hfile.
  - now rewrite (extract_existing _ _ _ Hfile).
  - destruct (extract_unreadable path w Hfile) as [e ->]. reflexivity.
Qed.

(** X20: a [report.html] that is missing does not stop the page, no more
    than one that is readable: the Quast section followed by the
    gene-length section then raises exactly the exception that
    [extract_gene_lengths] raises on [run_tres.predict], if any, and
    otherwise hands on the Quast display together with the filtered
    lengths; no file is left open either way. *)
Theorem missing_report_does_not_stop_the_page (w : world) :
  is_Some (files w !! report_path) \/ nothing_at w report_path ->
  snd (quast_then_genes w) = w /\
  (forall e,
      fst (quast_then_genes w) = Raise e
      <-> fst (extract_gene_lengths file_path w) = Raise e) /\
  (forall gene_lengths,
      fst (extract_gene_lengths file_path w) = Ok gene_lengths ->
      exists shown,
        fst (quast_section w) = Ok shown /\
        fst (quast_then_genes w) = Ok (shown, df gene_lengths)).
Proof.
  intros Hreport.
  destruct (quast_section_shown w Hreport) as [shown Hquast].
  pose proof (extract_world file_path w) as Hworld.
  unfold quast_then_genes, gene_length_section. rewrite Hquast.
  destruct (extract_gene_lengths file_path w) as [[lengths|e'] w'];
    cbn in *; subst w'.
  - split; [reflexivity |]. split; [intros e; split; discriminate |].
    intros gene_lengths [= <-]. eauto.
  - split; [reflexivity |]. split; [| discriminate].
    intros e; split; intros [= ->]; reflexivity.
Qed.

Lemma missing_report_does_not_stop_the_page_witness :
  snd (quast_then_genes predictions_only) = predictions_only /\
  (forall e,
      fst (quast_then_genes predictions_only) = Raise e
      <-> fst (extract_gene_lengths file_path predictions_only) = Raise e) /\
  (forall gene_lengths,
      fst (extract_gene_lengths file_path predictions_only)
        = Ok gene_lengths ->
      exists shown,
        fst (quast_section predictions_only) = Ok shown /\
        fst (quast_then_genes predictions_only)
          = Ok (shown, df gene_lengths)).
Proof.
  apply (missing_report_does_not_stop_the_page predictions_only).
  right. repeat split; vm_compute; reflexivity.
Defined.
